(** * arcgis-featureservice: the client of [src/index.js]

    A shallow embedding of the feature-service client: the constructor and
    its two-level default merge, the query operation [get] with its
    parameter merging and response handler, the three mutations [add],
    [update] and [delete], and their shared response handler
    [handleEsriResponse].

    Two kinds of JavaScript data occur in the program and are kept apart:

    - data the client only reads or builds afresh (response bodies, the
      converter's output, the errors and results handed to the callback) are
      trees of type [value];
    - objects the client writes to while the caller still holds them (the
      options object, the parameter object of [get], the instance itself) live
      in a store, a finite map from locations to property lists, so that
      aliasing is visible.

    Objects have own properties only; no key is taken to be the name of a
    member of [Object.prototype]. *)

From Stdlib Require Import ZArith NArith String Ascii List Bool Lia.
From Stdlib Require Import DecimalString Decimal.
From stdpp Require Import base option gmap strings list fin_maps.

Set Warnings "-register-all".

Local Open Scope string_scope.
Local Open Scope list_scope.

(** ** Numbers, primitives and data values *)

(** A JavaScript number is an IEEE-754 double.  The client does no
    arithmetic: it tests numbers for truthiness and produces them with
    [Number(...)] and as lengths.  A number is kept by its class and, when
    finite, by sign, mantissa and binary exponent ([m * 2^e]); zero is any
    finite number with mantissa [0], of either sign. *)
Inductive number :=
  | NaN
  | Infinity (negative : bool)
  | Finite (negative : bool) (m : N) (e : Z).

Definition num_of_nat (n : nat) : number := Finite false (N.of_nat n) 0.

Inductive prim :=
  | Undefined
  | Null
  | Bool (b : bool)
  | Num (n : number)
  | Str (s : string).

(** Data: primitives, arrays, plain objects and [Error] objects.  An object is
    the list of its own properties in the order [Object.keys] lists them. *)
Inductive value :=
  | Prim (p : prim)
  | Arr (elems : list value)
  | Obj (props : list (string * value))
  | Err (props : list (string * value)).

Coercion Prim : prim >-> value.

Inductive exn := TypeError | SyntaxError.

(** The result of running a piece of the client: it returns, it throws, or
    it leaves the modelled fragment of the language ([OutOfModel]: the
    behaviour then depends on the release of a third-party library). *)
Inductive result (A : Type) :=
  | Ok (a : A)
  | Throw (e : exn)
  | OutOfModel.

Arguments Ok {A} a.
Arguments Throw {A} e.
Arguments OutOfModel {A}.

Definition bind {A B} (r : result A) (k : A -> result B) : result B :=
  match r with
  | Ok a => k a
  | Throw e => Throw e
  | OutOfModel => OutOfModel
  end.

Declare Scope js_scope.
Delimit Scope js_scope with js.
Notation "'let!' x ':=' r 'in' k" := (bind r (fun x => k))
  (at level 10, x pattern, r at level 100, k at level 200) : js_scope.
Local Open Scope js_scope.

(** What a handler does with its callback: the arguments of the one call. *)
Inductive outcome := Callback (args : list value).

(** ToBoolean. *)
Definition num_truthy (n : number) : bool :=
  match n with
  | NaN => false
  | Infinity _ => true
  | Finite _ m _ => negb (N.eqb m 0)
  end.

Definition prim_truthy (p : prim) : bool :=
  match p with
  | Undefined | Null => false
  | Bool b => b
  | Num n => num_truthy n
  | Str s => negb (String.eqb s "")
  end.

Definition truthy (v : value) : bool :=
  match v with
  | Prim p => prim_truthy p
  | Arr _ | Obj _ | Err _ => true
  end.

(** ** Reading properties of data *)

Fixpoint lookup_prop {A} (d : A) (props : list (string * A)) (k : string) : A :=
  match props with
  | [] => d
  | (k', v) :: rest => if String.eqb k' k then v else lookup_prop d rest k
  end.

(** [o[k] = v] on a property list: an existing key keeps its place, a new
    one goes last. *)
Fixpoint assign_prop {A} (props : list (string * A)) (k : string) (v : A)
  : list (string * A) :=
  match props with
  | [] => [(k, v)]
  | (k', v') :: rest =>
      if String.eqb k' k then (k, v) :: rest
      else (k', v') :: assign_prop rest k v
  end.

(** The canonical decimal name of an array index. *)
Definition index_key (i : nat) : string :=
  NilEmpty.string_of_uint (Nat.to_uint i).

(** The index a property name denotes among the first [len] ones. *)
Definition key_index (k : string) (len : nat) : option nat :=
  List.find (fun i => String.eqb (index_key i) k) (seq 0 len).

Definition char_at (s : string) (i : nat) : value :=
  match String.get i s with
  | Some c => Str (String c EmptyString)
  | None => Undefined
  end.

(** [v[k]] for an own property [k]; [length] and the indices of arrays and
    strings included.  Reading a property of [undefined] or [null] throws. *)
Definition get_prop (v : value) (k : string) : result value :=
  match v with
  | Prim Undefined | Prim Null => Throw TypeError
  | Prim (Str s) =>
      if String.eqb k "length" then Ok (Prim (Num (num_of_nat (String.length s))))
      else match key_index k (String.length s) with
           | Some i => Ok (char_at s i)
           | None => Ok (Prim Undefined)
           end
  | Prim _ => Ok (Prim Undefined)
  | Arr l =>
      if String.eqb k "length" then Ok (Prim (Num (num_of_nat (List.length l))))
      else match key_index k (List.length l) with
           | Some i => Ok (nth i l (Prim Undefined))
           | None => Ok (Prim Undefined)
           end
  | Obj props | Err props => Ok (lookup_prop (Prim Undefined) props k)
  end.

(** [Object.keys(v)]. *)
Definition object_keys (v : value) : result (list string) :=
  match v with
  | Prim Undefined | Prim Null => Throw TypeError
  | Prim (Str s) => Ok (List.map index_key (seq 0 (String.length s)))
  | Prim _ => Ok []
  | Arr l => Ok (List.map index_key (seq 0 (List.length l)))
  | Obj props => Ok (List.map fst props)
  | Err props =>
      (* the [message] of an Error is not enumerable *)
      Ok (List.filter (fun k => negb (String.eqb k "message")) (List.map fst props))
  end.

(** ToPropertyKey of [keys[0]]: the first key, or the name ["undefined"]. *)
Definition first_key (keys : list string) : string :=
  match keys with
  | k :: _ => k
  | [] => "undefined"
  end.

(** [array.map(f)]: the elements are converted in order; the first call
    that throws ends the whole. *)
Fixpoint map_result {A B} (f : A -> result B) (l : list A) : result (list B) :=
  match l with
  | [] => Ok []
  | x :: rest =>
      let! y := f x in
      let! ys := map_result f rest in
      Ok (y :: ys)
  end.

(** ** The platform and the collaborators

    [JSON.parse], [JSON.stringify], the coercions of objects to primitives
    and of strings to numbers, and the two converters of
    terraformer-arcgis-parser are not part of the repository.  The client is
    defined over them. *)

Inductive hint := HintString | HintNumber.

(** A property of a stored object holds a primitive or a reference. *)
Inductive sval :=
  | SPrim (p : prim)
  | SRef (l : nat).

Section Client.

Variable JSON_parse : value -> result value.
Variable JSON_stringify : value -> prim.
Variable ToPrimitive : hint -> value -> result prim.
Variable StringToNumber : string -> number.
Variable NumberToString : number -> string.
(** [arcgis.parse]: service format to GeoJSON; like any call it returns or
    throws.  It is taken by what it makes of the feature it is handed;
    [Array.prototype.map] hands it the index and the array as well. *)
Variable arcgis_parse : value -> result value.
(** [arcgis.convert]: GeoJSON to service format; it returns or throws. *)
Variable arcgis_convert : value -> result value.
(** [stringify(x)] of a stored object, evaluated for [debug]: the string is
    not used, but [JSON.stringify] throws on a cyclic object. *)
Variable stringify :
  gmap nat (list (string * sval)) -> sval -> result unit.

Definition prim_to_string (p : prim) : string :=
  match p with
  | Undefined => "undefined"
  | Null => "null"
  | Bool true => "true"
  | Bool false => "false"
  | Num n => NumberToString n
  | Str s => s
  end.

Definition to_string (v : value) : result string :=
  match v with
  | Prim p => Ok (prim_to_string p)
  | _ => let! p := ToPrimitive HintString v in Ok (prim_to_string p)
  end.

Definition prim_to_number (p : prim) : number :=
  match p with
  | Undefined => NaN
  | Null => num_of_nat 0
  | Bool true => num_of_nat 1
  | Bool false => num_of_nat 0
  | Num n => n
  | Str s => StringToNumber s
  end.

(** [Number(v)]. *)
Definition to_number (v : value) : result number :=
  match v with
  | Prim p => Ok (prim_to_number p)
  | _ => let! p := ToPrimitive HintNumber v in Ok (prim_to_number p)
  end.

(** [new Error(msg)]: the own properties of the new object. *)
Definition new_error (msg : value) : result (list (string * value)) :=
  match msg with
  | Prim Undefined => Ok []
  | _ => let! s := to_string msg in Ok [("message", Prim (Str s))]
  end.

(** ** The shared handler of add, update and delete (lines 155-199) *)

Definition handleEsriResponse (err body : value) : result outcome :=
  if truthy err then Ok (Callback [err])
  else
    let! json := (if truthy body then JSON_parse body else Ok body) in
    if negb (truthy json) then
      let! e := new_error (Str "Response body was null or could not be parsed") in
      Ok (Callback [Err e])
    else
      let! keys := object_keys json in
      let! results := get_prop json (first_key keys) in
      let! unusable :=
        (if negb (truthy results) then Ok true
         else let! len := get_prop results "length" in Ok (negb (truthy len))) in
      if (unusable : bool) then
        let! e := new_error (Str "Results object not found or is not as expected") in
        Ok (Callback [Err e])
      else
        let! result := get_prop results (index_key 0) in
        let! success := get_prop result "success" in
        if truthy success then Ok (Callback [Prim Null])
        else
          let! rerr := get_prop result "error" in
          if truthy rerr then
            let! description := get_prop rerr "description" in
            let! e := new_error description in
            let! code := get_prop rerr "code" in
            Ok (Callback [Err (assign_prop e "code" code)])
          else
            let! e := new_error (Str "Feature service error: unexpected result") in
            Ok (Callback [Err (assign_prop e "result" result)]).

(** ** The handler of get (lines 60-89)

    Line 61 serializes the body for [debug] first; the body is data, on
    which [JSON.stringify] returns. *)

Definition _getRequestCallback (err body : value) : result outcome :=
  if truthy err then Ok (Callback [err])
  else
    let! berr := get_prop body "error" in
    if truthy berr then
      let! message := get_prop berr "message" in
      let! e := new_error message in
      let! code := get_prop berr "code" in
      let! details := get_prop berr "details" in
      Ok (Callback [Err (assign_prop (assign_prop e "code" code) "details" details)])
    else
      let! features := get_prop body "features" in
      if negb (truthy features) then
        let! e := new_error (Str "features are undefined") in
        Ok (Callback [Err e])
      else
        match features with
        | Arr esriFeatures =>
            (* an array inherits [map] from Array.prototype *)
            let! geojsonFeatures := map_result arcgis_parse esriFeatures in
            let geojson := Obj [("type", Prim (Str "FeatureCollection"));
                                ("features", Arr geojsonFeatures)] in
            Ok (Callback [Prim Null; geojson])
        | _ =>
            (* on other data [map] is an own data property, if anything *)
            let! m := get_prop features "map" in
            if negb (truthy m) then
              let! e := new_error (Str "features are undefined") in
              Ok (Callback [Err e])
            else Throw TypeError (* features.map is not a function *)
        end.

(** ** The store: objects the client shares with its caller *)

Definition struthy (v : sval) : bool :=
  match v with
  | SPrim p => prim_truthy p
  | SRef _ => true
  end.

Definition alloc (st : gmap nat (list (string * sval))) (o : list (string * sval))
  : gmap nat (list (string * sval)) * nat :=
  let l := fresh (dom st) in (<[l := o]> st, l).

(** [v.k] in the store.  A reference to nothing does not occur in a running
    program and leaves the model. *)
Definition sget (st : gmap nat (list (string * sval))) (v : sval) (k : string)
  : result sval :=
  match v with
  | SPrim Undefined | SPrim Null => Throw TypeError
  | SPrim (Str s) =>
      if String.eqb k "length" then Ok (SPrim (Num (num_of_nat (String.length s))))
      else match key_index k (String.length s) with
           | Some i => match String.get i s with
                       | Some c => Ok (SPrim (Str (String c EmptyString)))
                       | None => Ok (SPrim Undefined)
                       end
           | None => Ok (SPrim Undefined)
           end
  | SPrim _ => Ok (SPrim Undefined)
  | SRef l =>
      match st !! l with
      | Some o => Ok (lookup_prop (SPrim Undefined) o k)
      | None => OutOfModel
      end
  end.

(** [v.k = x] in strict mode: on a primitive it throws. *)
Definition sput (st : gmap nat (list (string * sval))) (v : sval) (k : string)
    (x : sval) : result (gmap nat (list (string * sval))) :=
  match v with
  | SPrim _ => Throw TypeError
  | SRef l =>
      match st !! l with
      | Some o => Ok (<[l := assign_prop o k x]> st)
      | None => OutOfModel
      end
  end.

(** The keys lodash enumerates on a source.  Every release skips the other
    primitives; on a non-empty string the releases differ. *)
Definition source_keys (st : gmap nat (list (string * sval))) (src : sval)
  : result (list string) :=
  match src with
  | SRef l =>
      match st !! l with
      | Some o => Ok (List.map fst o)
      | None => OutOfModel
      end
  | SPrim (Str s) => if String.eqb s "" then Ok [] else OutOfModel
  | SPrim _ => Ok []
  end.

Definition is_undefined (v : sval) : bool :=
  match v with
  | SPrim Undefined => true
  | _ => false
  end.

(** The loop of [defaults]: a key of the source is copied when the
    destination's value for it is [undefined]. *)
Fixpoint defaults_loop (st : gmap nat (list (string * sval))) (dest : nat)
    (src : sval) (keys : list string) : result (gmap nat (list (string * sval))) :=
  match keys with
  | [] => Ok st
  | key :: rest =>
      let! value := sget st (SRef dest) key in
      let! st' := (if is_undefined value then
                     let! x := sget st src key in sput st (SRef dest) key x
                   else Ok st) in
      defaults_loop st' dest src rest
  end.

(** [defaults(object, source)] of lodash.defaults, on an object destination:
    source properties are assigned to the destination for every destination
    property that resolves to [undefined]; the destination is written in
    place and returned. *)
Definition defaults (st : gmap nat (list (string * sval))) (dest : nat) (src : sval)
  : result (gmap nat (list (string * sval))) :=
  let! keys := source_keys st src in
  defaults_loop st dest src keys.

(** ** The constructor (lines 17-40) *)

Definition builtinResultOptions : list (string * sval) :=
  [ ("returnCountsOnly", SPrim (Bool false));
    ("returnIdsOnly", SPrim (Bool false));
    ("returnGeometry", SPrim (Bool true));
    ("outSR", SPrim (Str "4326"));
    ("outFields", SPrim (Str "*"));
    ("f", SPrim (Str "json")) ].

(** [new FeatureService(options)], which a call without [new] comes to as
    well (lines 20-22); [options] is an object or is omitted (falsy).  The
    store after it and the new instance are returned. *)
Definition FeatureService (st : gmap nat (list (string * sval))) (options : sval)
  : result (gmap nat (list (string * sval)) * nat) :=
  let '(st, this) := alloc st [] in
  let '(st, dro) := alloc st builtinResultOptions in
  let '(st, ds) := alloc st [("defaultResultOptions", SRef dro)] in
  let! st := sput st (SRef this) "defaultSettings" (SRef ds) in
  let! settings :=
    (if struthy options then
       match options with
       | SRef o =>
           let! dsv := sget st (SRef this) "defaultSettings" in
           let! st := defaults st o dsv in Ok (st, options)
       | SPrim _ => OutOfModel
       end
     else let! dsv := sget st (SRef this) "defaultSettings" in Ok (st, dsv)) in
  let '(st, settings) := settings in
  let! st := sput st (SRef this) "settings" settings in
  let! given := (if struthy options then sget st options "defaultResultOptions"
                 else Ok options) in
  if struthy given then
    match given with
    | SRef d =>
        let! target := sget st (SRef this) "settings" in
        let! dsv := sget st (SRef this) "defaultSettings" in
        let! src := sget st dsv "defaultResultOptions" in
        let! st := defaults st d src in
        let! st := sput st target "defaultResultOptions" given in
        Ok (st, this)
    | SPrim _ => OutOfModel
    end
  else Ok (st, this).

(** ** The query operation (lines 48-59) *)

Record get_request := {
  get_url : sval * string;   (* the operands of [url + '/query'] *)
  qs : sval;
  json : bool
}.

(** [get(params, callback)] up to the call of the transport; [params] is an
    object.  The store after it and the request are returned; the response
    goes to [_getRequestCallback]. *)
Definition get (st : gmap nat (list (string * sval))) (this : nat) (params : sval)
  : result (gmap nat (list (string * sval)) * get_request) :=
  match params with
  | SPrim _ => OutOfModel
  | SRef p =>
      let! settings := sget st (SRef this) "settings" in
      let! dro := sget st settings "defaultResultOptions" in
      let! st := defaults st p dro in
      let paramsWithDefaults := params in
      let! token := sget st (SRef this) "token" in
      let! st := sput st paramsWithDefaults "token" token in
      let! _ := stringify st paramsWithDefaults in
      let! settings := sget st (SRef this) "settings" in
      let! url := sget st settings "url" in
      Ok (st, {| get_url := (url, "/query"); qs := paramsWithDefaults;
                 json := true |})
  end.

(** ** The mutations (lines 96-148) *)

Record post_request := {
  post_f : option string;    (* the option [f] beside [url] and [form] *)
  post_url : sval * string;
  form : list (string * sval)
}.

(** A mutation in flight: the request and the handler of its response. *)
Record post_call := {
  request : post_request;
  respond : value -> value -> result outcome
}.

Definition add (st : gmap nat (list (string * sval))) (this : nat) (geojson : value)
  : result post_call :=
  let! esriJson := arcgis_convert geojson in
  let! settings := sget st (SRef this) "settings" in
  let! url := sget st settings "url" in
  let features := JSON_stringify (Arr [esriJson]) in
  let! token := sget st (SRef this) "token" in
  Ok {| request := {| post_f := Some "json";
                      post_url := (url, "/addFeatures");
                      form := [("f", SPrim (Str "json"));
                               ("features", SPrim features);
                               ("token", token)] |};
        respond := handleEsriResponse |}.

(** [o.k = x] on data, in strict mode.  A named property written to an array
    is kept out of the tree: nothing but [JSON.stringify] reads the feature
    afterwards, and it serializes an array by its indices. *)
Definition put_prop (v : value) (k : string) (x : value) : result value :=
  match v with
  | Prim _ => Throw TypeError
  | Arr l => Ok (Arr l)
  | Obj props => Ok (Obj (assign_prop props k x))
  | Err props => Ok (Err (assign_prop props k x))
  end.

(** Lines 117-120: the converted feature with its [OBJECTID] made a number. *)
Definition update_feature (geojson : value) : result value :=
  let! esriJson := arcgis_convert geojson in
  let! attributes := get_prop esriJson "attributes" in
  let! objectid := get_prop attributes "OBJECTID" in
  let! n := to_number objectid in
  let! attributes' := put_prop attributes "OBJECTID" (Prim (Num n)) in
  (* the write went to the object [esriJson.attributes] refers to *)
  match esriJson with
  | Obj props => Ok (Obj (assign_prop props "attributes" attributes'))
  | Err props => Ok (Err (assign_prop props "attributes" attributes'))
  | _ => Ok esriJson
  end.

Definition update (st : gmap nat (list (string * sval))) (this : nat) (geojson : value)
  : result post_call :=
  let! esriJson := update_feature geojson in
  let! settings := sget st (SRef this) "settings" in
  let! url := sget st settings "url" in
  let features := JSON_stringify (Arr [esriJson]) in
  let! token := sget st (SRef this) "token" in
  Ok {| request := {| post_f := Some "json";
                      post_url := (url, "/updateFeatures");
                      form := [("f", SPrim (Str "json"));
                               ("features", SPrim features);
                               ("token", token)] |};
        respond := handleEsriResponse |}.

Definition delete (st : gmap nat (list (string * sval))) (this : nat) (id : sval)
  : result post_call :=
  let! settings := sget st (SRef this) "settings" in
  let! url := sget st settings "url" in
  let! token := sget st (SRef this) "token" in
  Ok {| request := {| post_f := None;
                      post_url := (url, "/deleteFeatures");
                      form := [("objectIds", id);
                               ("f", SPrim (Str "json"));
                               ("rollbackOnFailure", SPrim (Bool true));
                               ("token", token)] |};
        respond := handleEsriResponse |}.

(** The three mutations as one call. *)
Inductive mutation :=
  | Add (geojson : value)
  | Update (geojson : value)
  | Delete (id : sval).

Definition mutate (st : gmap nat (list (string * sval))) (this : nat) (m : mutation)
  : result post_call :=
  match m with
  | Add geojson => add st this geojson
  | Update geojson => update st this geojson
  | Delete id => delete st this id
  end.

End Client.

(** ** A sample platform

    Instances of the platform functions, to run the client on literal
    inputs.  [Sample.JSON_parse] answers only where the answer is certain: it
    accepts a fragment of JSON (objects with distinct non-numeric keys,
    arrays, strings of printable characters without escapes, the integers
    up to 2^53, [true], [false], [null]), it rejects a text that cannot
    start a JSON value, and it leaves the model on anything else. *)

Module Sample.

Definition dquote : ascii := "034"%char.
Definition backslash : ascii := "092"%char.

Definition is_ws (c : ascii) : bool :=
  match nat_of_ascii c with
  | 32 | 9 | 10 | 13 => true
  | _ => false
  end.

Fixpoint skip_ws (cs : list ascii) : list ascii :=
  match cs with
  | c :: rest => if is_ws c then skip_ws rest else cs
  | [] => []
  end.

Definition is_digit (c : ascii) : bool :=
  (48 <=? nat_of_ascii c)%nat && (nat_of_ascii c <=? 57)%nat.

Definition is_plain (c : ascii) : bool :=
  (32 <=? nat_of_ascii c)%nat && (nat_of_ascii c <=? 126)%nat
  && negb (Ascii.eqb c dquote) && negb (Ascii.eqb c backslash).

(** The characters up to the closing quote, and what follows it. *)
Fixpoint scan_string (cs : list ascii) : option (string * list ascii) :=
  match cs with
  | [] => None
  | c :: rest =>
      if Ascii.eqb c dquote then Some (EmptyString, rest)
      else if is_plain c then
        match scan_string rest with
        | Some (s, rest') => Some (String c s, rest')
        | None => None
        end
      else None
  end.

Fixpoint scan_digits (cs : list ascii) (acc : N) : N * list ascii :=
  match cs with
  | c :: rest =>
      if is_digit c
      then scan_digits rest (acc * 10 + N.of_nat (nat_of_ascii c - 48))%N
      else (acc, cs)
  | [] => (acc, [])
  end.

Fixpoint strip_prefix (p cs : list ascii) : option (list ascii) :=
  match p, cs with
  | [], _ => Some cs
  | a :: p', c :: cs' => if Ascii.eqb a c then strip_prefix p' cs' else None
  | _ :: _, [] => None
  end.

Definition key_allowed (k : string) (seen : list (string * value)) : bool :=
  negb (existsb (fun kv => String.eqb (fst kv) k) seen)
  && match k with
     | String c _ => negb (is_digit c)
     | EmptyString => true
     end.

Fixpoint parse_value (fuel : nat) (cs : list ascii) : option (value * list ascii) :=
  match fuel with
  | O => None
  | S fuel' =>
      let fix elements (n : nat) (cs : list ascii) (acc : list value) :=
        match n with
        | O => None
        | S n' =>
            match parse_value fuel' cs with
            | Some (v, rest) =>
                match skip_ws rest with
                | c :: rest' =>
                    if Ascii.eqb c ","%char then elements n' rest' (v :: acc)
                    else if Ascii.eqb c "]"%char then Some (Arr (rev (v :: acc)), rest')
                    else None
                | [] => None
                end
            | None => None
            end
        end in
      let fix members (n : nat) (cs : list ascii) (acc : list (string * value)) :=
        match n with
        | O => None
        | S n' =>
            match skip_ws cs with
            | q :: rest =>
                if Ascii.eqb q dquote then
                  match scan_string rest with
                  | Some (k, rest1) =>
                      if key_allowed k acc then
                        match skip_ws rest1 with
                        | c :: rest2 =>
                            if Ascii.eqb c ":"%char then
                              match parse_value fuel' rest2 with
                              | Some (v, rest3) =>
                                  match skip_ws rest3 with
                                  | d :: rest4 =>
                                      if Ascii.eqb d ","%char
                                      then members n' rest4 ((k, v) :: acc)
                                      else if Ascii.eqb d "}"%char
                                      then Some (Obj (rev ((k, v) :: acc)), rest4)
                                      else None
                                  | [] => None
                                  end
                              | None => None
                              end
                            else None
                        | [] => None
                        end
                      else None
                  | None => None
                  end
                else None
            | [] => None
            end
        end in
      match skip_ws cs with
      | [] => None
      | c :: rest =>
          if Ascii.eqb c "{"%char then
            match skip_ws rest with
            | d :: rest' =>
                if Ascii.eqb d "}"%char then Some (Obj [], rest')
                else members (List.length cs) rest []
            | [] => None
            end
          else if Ascii.eqb c "["%char then
            match skip_ws rest with
            | d :: rest' =>
                if Ascii.eqb d "]"%char then Some (Arr [], rest')
                else elements (List.length cs) rest []
            | [] => None
            end
          else if Ascii.eqb c dquote then
            match scan_string rest with
            | Some (s, rest') => Some (Prim (Str s), rest')
            | None => None
            end
          else if Ascii.eqb c "0"%char then
            Some (Prim (Num (Finite false 0 0)), rest)
          else if is_digit c then
            let '(n, rest') := scan_digits (c :: rest) 0%N in
            if (n <=? 2 ^ 53)%N then Some (Prim (Num (Finite false n 0)), rest')
            else None
          else
            match strip_prefix (list_ascii_of_string "true") (c :: rest) with
            | Some rest' => Some (Prim (Bool true), rest')
            | None =>
                match strip_prefix (list_ascii_of_string "false") (c :: rest) with
                | Some rest' => Some (Prim (Bool false), rest')
                | None =>
                    match strip_prefix (list_ascii_of_string "null") (c :: rest) with
                    | Some rest' => Some (Prim Null, rest')
                    | None => None
                    end
                end
            end
      end
  end.

(** Whether [c] can be the first character of a JSON value. *)
Definition starts_value (c : ascii) : bool :=
  is_digit c
  || existsb (Ascii.eqb c) (list_ascii_of_string "{[-tfn")
  || Ascii.eqb c dquote.

Definition JSON_parse (text : value) : result value :=
  match text with
  | Prim (Str s) =>
      match skip_ws (list_ascii_of_string s) with
      | [] => Throw SyntaxError
      | c :: rest =>
          if starts_value c then
            match parse_value (S (String.length s)) (c :: rest) with
            | Some (v, rest') =>
                match skip_ws rest' with
                | [] => Ok v
                | _ :: _ => OutOfModel
                end
            | None => OutOfModel
            end
          else Throw SyntaxError
      end
  | _ => OutOfModel
  end.

(** [StringToNumber], exact on strings of decimal digits up to 2^53 and on
    the empty string; any other string is given [NaN] here. *)
Definition StringToNumber (s : string) : number :=
  let cs := list_ascii_of_string s in
  match cs with
  | [] => Finite false 0 0
  | _ :: _ =>
      if forallb is_digit cs then
        let n := fst (scan_digits cs 0%N) in
        if (n <=? 2 ^ 53)%N then Finite false n 0 else NaN
      else NaN
  end.

Definition decimal (n : N) : string := NilEmpty.string_of_uint (N.to_uint n).

(** [Number::toString], exact on the integers up to 2^53 and the
    non-finite numbers; any other number is given the empty string here. *)
Definition NumberToString (n : number) : string :=
  match n with
  | NaN => "NaN"
  | Infinity false => "Infinity"
  | Infinity true => "-Infinity"
  | Finite neg m e =>
      if Z.eqb e 0 && (m <=? 2 ^ 53)%N then
        if neg && negb (N.eqb m 0) then "-" ++ decimal m else decimal m
      else ""
  end.

(** No object is coerced in the sample runs. *)
Definition ToPrimitive (h : hint) (v : value) : result prim := OutOfModel.

Definition hex_digit (n : nat) : ascii :=
  if (n <? 10)%nat then ascii_of_nat (48 + n) else ascii_of_nat (87 + n).

Definition escape_char (c : ascii) : string :=
  let n := nat_of_ascii c in
  if Ascii.eqb c dquote then String backslash (String dquote EmptyString)
  else if Ascii.eqb c backslash then String backslash (String backslash EmptyString)
  else if (32 <=? n)%nat then String c EmptyString
  else match n with
       | 8 => String backslash "b"
       | 9 => String backslash "t"
       | 10 => String backslash "n"
       | 12 => String backslash "f"
       | 13 => String backslash "r"
       | _ => String backslash
                ("u00" ++ String (hex_digit (n / 16)) (String (hex_digit (n mod 16)) ""))%string
       end.

Fixpoint escape (s : string) : string :=
  match s with
  | EmptyString => EmptyString
  | String c rest => escape_char c ++ escape rest
  end.

Definition quote (s : string) : string :=
  String dquote (escape s ++ String dquote EmptyString).

Definition number_text (n : number) : string :=
  match n with
  | Finite _ _ _ => NumberToString n
  | _ => "null"
  end.

(** [JSON.stringify(v)] on data; [None] is [undefined]. *)
Fixpoint stringify_value (v : value) : option string :=
  match v with
  | Prim Undefined => None
  | Prim Null => Some "null"
  | Prim (Bool true) => Some "true"
  | Prim (Bool false) => Some "false"
  | Prim (Num n) => Some (number_text n)
  | Prim (Str s) => Some (quote s)
  | Arr l =>
      Some ("[" ++ String.concat ","
                     (List.map (fun x => match stringify_value x with
                                         | Some t => t
                                         | None => "null"
                                         end) l) ++ "]")%string
  | Obj props =>
      Some ("{" ++ String.concat ","
                     (List.flat_map
                        (fun kv => match stringify_value (snd kv) with
                                   | Some t => [quote (fst kv) ++ ":" ++ t]
                                   | None => []
                                   end) props) ++ "}")%string
  | Err props =>
      (* the [message] of an Error is not enumerable *)
      Some ("{" ++ String.concat ","
                     (List.flat_map
                        (fun kv => if String.eqb (fst kv) "message" then []
                                   else match stringify_value (snd kv) with
                                        | Some t => [quote (fst kv) ++ ":" ++ t]
                                        | None => []
                                        end) props) ++ "}")%string
  end.

Definition JSON_stringify (v : value) : prim :=
  match stringify_value v with
  | Some t => Str t
  | None => Undefined
  end.

(** [stringify] for [debug] returns on an object that holds primitives
    only; an object holding references may be cyclic. *)
Definition stringify (st : gmap nat (list (string * sval))) (v : sval) : result unit :=
  match v with
  | SPrim _ => Ok tt
  | SRef l =>
      match st !! l with
      | Some o =>
          if forallb (fun kv => match snd kv with SPrim _ => true | SRef _ => false end) o
          then Ok tt else OutOfModel
      | None => OutOfModel
      end
  end.

(** Stand-ins for the two converters: the properties of a feature become its
    attributes, and back; on [null] or [undefined] the property read
    throws. *)
Definition convert (geojson : value) : result value :=
  let! properties := get_prop geojson "properties" in
  Ok (Obj [("attributes", properties)]).

Definition parse (arcgis : value) : result value :=
  let! attributes := get_prop arcgis "attributes" in
  Ok (Obj [("type", Prim (Str "Feature")); ("properties", attributes)]).

End Sample.

(** ** Observations the properties are stated with *)

(** The default result options an instance holds:
    [this.settings.defaultResultOptions]. *)
Definition stored_defaults (st : gmap nat (list (string * sval))) (this : nat) : result sval :=
  let! settings := sget st (SRef this) "settings" in
  sget st settings "defaultResultOptions".

Definition is_number (v : value) : bool :=
  match v with
  | Prim (Num _) => true
  | _ => false
  end.

(** The words of the claim on results: missing, not list-like, empty. *)
Definition results_of (props : list (string * value)) : value :=
  match props with
  | [] => Prim Undefined
  | (_, v) :: _ => v
  end.

Definition missing (v : value) : bool :=
  match v with
  | Prim Undefined | Prim Null => true
  | _ => false
  end.

(** A value is list-like when it carries a [length]. *)
Definition list_like (v : value) : bool :=
  match get_prop v "length" with
  | Ok (Prim Undefined) => false
  | Ok _ => true
  | _ => false
  end.

Definition empty_sequence (v : value) : bool :=
  match v with
  | Arr [] => true
  | _ => false
  end.

(** The converted feature with [attributes'] for its [attributes]. *)
Definition with_attributes (esriJson attributes' : value) : value :=
  match esriJson with
  | Obj props => Obj (assign_prop props "attributes" attributes')
  | Err props => Err (assign_prop props "attributes" attributes')
  | _ => esriJson
  end.

Definition is_array (v : value) : bool :=
  match v with
  | Arr _ => true
  | _ => false
  end.

(** The endpoint a mutation posts to. *)
Definition endpoint (m : mutation) : string :=
  match m with
  | Add _ => "/addFeatures"
  | Update _ => "/updateFeatures"
  | Delete _ => "/deleteFeatures"
  end.

(** ** Inputs for the sample runs *)

Module Examples.

(** [{"addResults":[{"success":true}]}] *)
Definition body_success : string :=
  "{" ++ Sample.quote "addResults" ++ ":[{" ++ Sample.quote "success" ++ ":true}]}".

(** [{"addResults":[]}] *)
Definition body_no_results : string :=
  "{" ++ Sample.quote "addResults" ++ ":[]}".

Definition body_html : string := "<html>".

(** Object 0 is the options [{url: 'u', token: 'secret'}], object 1 the
    parameters [{where: '1=1', token: 'mine'}]. *)
Definition token_store : gmap nat (list (string * sval)) :=
  {[ 0%nat := [("url", SPrim (Str "u")); ("token", SPrim (Str "secret"))];
     1%nat := [("where", SPrim (Str "1=1")); ("token", SPrim (Str "mine"))] ]}.

(** Object 0 is the options [{url: 'u', defaultResultOptions: ro}], object 1
    is [ro = {outSR: '102100'}]. *)
Definition shared_store : gmap nat (list (string * sval)) :=
  {[ 0%nat := [("url", SPrim (Str "u")); ("defaultResultOptions", SRef 1)];
     1%nat := [("outSR", SPrim (Str "102100"))] ]}.

(** Object 0 is the options [{url: 'u', defaultResultOptions: null}]. *)
Definition null_store : gmap nat (list (string * sval)) :=
  {[ 0%nat := [("url", SPrim (Str "u")); ("defaultResultOptions", SPrim Null)] ]}.

(** [{"addResults":"abc"}] *)
Definition body_string_results : string :=
  "{" ++ Sample.quote "addResults" ++ ":" ++ Sample.quote "abc" ++ "}".

(** Object 0 is the options [{url: 'u', idField: 'FID'}]. *)
Definition fid_store : gmap nat (list (string * sval)) :=
  {[ 0%nat := [("url", SPrim (Str "u")); ("idField", SPrim (Str "FID"))] ]}.

(** [{type: 'Feature', properties: {FID: '7'}}] *)
Definition fid_feature : value :=
  Obj [("type", Prim (Str "Feature"));
       ("properties", Obj [("FID", Prim (Str "7"))])].

(** [{type: 'Feature', properties: {OBJECTID: '7', name: 'a'}}] *)
Definition oid_feature : value :=
  Obj [("type", Prim (Str "Feature"));
       ("properties", Obj [("OBJECTID", Prim (Str "7")); ("name", Prim (Str "a"))])].

(** [{features: [{attributes: {a: 1}}, {attributes: {a: 2}}]}] *)
Definition body_features : value :=
  Obj [("features",
        Arr [Obj [("attributes", Obj [("a", Prim (Num (num_of_nat 1)))])];
             Obj [("attributes", Obj [("a", Prim (Num (num_of_nat 2)))])]])].

Definition sample_mutate :=
  mutate Sample.JSON_parse Sample.JSON_stringify Sample.ToPrimitive
         Sample.StringToNumber Sample.NumberToString Sample.convert.

Definition sample_update :=
  update Sample.JSON_parse Sample.JSON_stringify Sample.ToPrimitive
         Sample.StringToNumber Sample.NumberToString Sample.convert.

Definition sample_update_feature :=
  update_feature Sample.ToPrimitive Sample.StringToNumber Sample.convert.

Definition sample_get := get Sample.stringify.

Definition sample_add :=
  add Sample.JSON_parse Sample.JSON_stringify Sample.ToPrimitive
      Sample.NumberToString Sample.convert.

(** The store and the instance after [new FeatureService(options)] on
    [token_store]. *)
Definition constructed : gmap nat (list (string * sval)) * nat :=
  match FeatureService token_store (SRef 0) with
  | Ok r => r
  | _ => (token_store, 0%nat)
  end.

Definition sample_getRequestCallback :=
  _getRequestCallback Sample.ToPrimitive Sample.NumberToString Sample.parse.

(** Construct on [token_store], then query with object 1: the token the
    options gave and the token the query sends. *)
Definition token_run : result (sval * sval) :=
  let! (st1, this) := FeatureService token_store (SRef 0) in
  let! (st2, req) := sample_get st1 this (SRef 1) in
  let! settings := sget st2 (SRef this) "settings" in
  let! configured := sget st2 settings "token" in
  let! sent := sget st2 (qs req) "token" in
  Ok (configured, sent).

(** Construct on [null_store]: the default result options then held. *)
Definition null_run : result sval :=
  let! (st1, this) := FeatureService null_store (SRef 0) in
  stored_defaults st1 this.


(** Construct on [fid_store], then update [fid_feature]: the configured
    identifier field, and the attributes [FID] and [OBJECTID] of the feature
    to serialize. *)
Definition fid_run : result (sval * value * value) :=
  let! (st1, this) := FeatureService fid_store (SRef 0) in
  let! settings := sget st1 (SRef this) "settings" in
  let! idField := sget st1 settings "idField" in
  let! esriJson := sample_update_feature fid_feature in
  let! attributes := get_prop esriJson "attributes" in
  let! fid := get_prop attributes "FID" in
  let! objectid := get_prop attributes "OBJECTID" in
  Ok (idField, fid, objectid).

(** [{"addResults":[{"error":{"description":"bad","code":99}}]}] *)
Definition body_reported_error : string :=
  "{" ++ Sample.quote "addResults" ++ ":[{" ++ Sample.quote "error" ++ ":{"
  ++ Sample.quote "description" ++ ":" ++ Sample.quote "bad" ++ ","
  ++ Sample.quote "code" ++ ":99}}]}".

(** [{"addResults":[{"objectId":5}]}] *)
Definition body_unexpected : string :=
  "{" ++ Sample.quote "addResults" ++ ":[{" ++ Sample.quote "objectId" ++ ":5}]}".

(** [{"addResults":[null]}] *)
Definition body_null_result : string :=
  "{" ++ Sample.quote "addResults" ++ ":[null]}".

Definition body_null : string := "null".

(** [{error: {message: 'm', code: 1, details: ['d']}}] *)
Definition body_service_error : value :=
  Obj [("error", Obj [("message", Prim (Str "m"));
                      ("code", Prim (Num (num_of_nat 1)));
                      ("details", Arr [Prim (Str "d")])])].

(** [{features: [null]}] *)
Definition body_null_feature : value :=
  Obj [("features", Arr [Prim Null])].

(** [{features: {map: 1}}] *)
Definition body_features_object : value :=
  Obj [("features", Obj [("map", Prim (Num (num_of_nat 1)))])].

(** [{type: 'Point', coordinates: [1, 2]}], a geometry without properties. *)
Definition bare_geometry : value :=
  Obj [("type", Prim (Str "Point"));
       ("coordinates", Arr [Prim (Num (num_of_nat 1)); Prim (Num (num_of_nat 2))])].

(** [{type: 'Feature', properties: {OBJECTID: 7}}] *)
Definition numeric_feature : value :=
  Obj [("type", Prim (Str "Feature"));
       ("properties", Obj [("OBJECTID", Prim (Num (num_of_nat 7)))])].

(** Object 0 is the options [{url: 'u', defaultResultOptions: null}], object 1
    the parameters [{where: '1=1'}]. *)
Definition null_query_store : gmap nat (list (string * sval)) :=
  {[ 0%nat := [("url", SPrim (Str "u")); ("defaultResultOptions", SPrim Null)];
     1%nat := [("where", SPrim (Str "1=1"))] ]}.

Definition sample_handler :=
  handleEsriResponse Sample.JSON_parse Sample.ToPrimitive Sample.NumberToString.

End Examples.

(** * Properties *)

Section HandlerProperties.

Variable JSON_parse : value -> result value.
Variable JSON_stringify : value -> prim.
Variable ToPrimitive : hint -> value -> result prim.
Variable StringToNumber : string -> number.
Variable NumberToString : number -> string.
Variable arcgis_parse : value -> result value.
Variable arcgis_convert : value -> result value.

Local Abbreviation handler := (handleEsriResponse JSON_parse ToPrimitive NumberToString).
Local Abbreviation mutate' :=
  (mutate JSON_parse JSON_stringify ToPrimitive StringToNumber NumberToString
          arcgis_convert).

Lemma num_of_nat_truthy n : num_truthy (num_of_nat n) = negb (Nat.eqb n 0).
Proof. destruct n; reflexivity. Qed.

Lemma lookup_prop_head {A} (d : A) k v rest : lookup_prop d ((k, v) :: rest) k = v.
Proof. simpl. now rewrite String.eqb_refl. Qed.

(** Every mutation hands its response to [handleEsriResponse]. *)
Lemma mutate_respond st this m call :
  mutate' st this m = Ok call -> respond call = handler.
Proof.
  destruct m; simpl; unfold add, update, delete, bind; intros H;
    repeat match type of H with
           | match ?x with _ => _ end = _ => destruct x; try discriminate
           end;
    now inversion H.
Qed.

(** The results a body carries: the value under its first key. *)
Lemma first_results props :
  get_prop (Obj props) (first_key (List.map fst props))
  = Ok (match props with
        | [] => Prim Undefined
        | (_, v) :: _ => v
        end).
Proof.
  destruct props as [|[k v] rest]; simpl; [reflexivity|].
  now rewrite String.eqb_refl.
Qed.

Lemma index_key_0 : index_key 0 = "0".
Proof. reflexivity. Qed.

Lemma array_length (l : list value) :
  get_prop (Arr l) "length" = Ok (Prim (Num (num_of_nat (List.length l)))).
Proof. reflexivity. Qed.

Lemma first_element (first : value) rest :
  get_prop (Arr (first :: rest)) (index_key 0) = Ok first.
Proof. reflexivity. Qed.

(** C1: a mutation whose transport reports no error and whose body parses to
    an object whose first key holds a non-empty array, the first element of
    which has a truthy [success], ends in [callback(null)]: one argument,
    [null]. *)
Theorem mutation_success_callback_null
    st this m call err body k first rest others success :
  mutate' st this m = Ok call ->
  truthy err = false ->
  truthy body = true ->
  JSON_parse body = Ok (Obj ((k, Arr (first :: rest)) :: others)) ->
  get_prop first "success" = Ok success ->
  truthy success = true ->
  respond call err body = Ok (Callback [Prim Null]).
Proof.
  intros Hcall Herr Hbody Hparse Hget Hsuccess.
  rewrite (mutate_respond _ _ _ _ Hcall).
  unfold handleEsriResponse.
  rewrite Herr, Hbody, Hparse. cbn [bind truthy negb object_keys].
  rewrite first_results. cbn [bind truthy negb].
  rewrite array_length. cbn [bind truthy prim_truthy].
  rewrite num_of_nat_truthy. cbn [length Nat.eqb negb].
  rewrite first_element. cbn [bind]. rewrite Hget. cbn [bind].
  now rewrite Hsuccess.
Qed.

(** C6: a mutation whose transport reports no error and whose body parses to
    an object whose first key holds nothing, a value that is not list-like,
    or an empty array, ends in [callback(error)] with the message
    "Results object not found or is not as expected". *)
Theorem mutation_unusable_results st this m call err body props :
  mutate' st this m = Ok call ->
  truthy err = false ->
  truthy body = true ->
  JSON_parse body = Ok (Obj props) ->
  missing (results_of props) = true
  \/ list_like (results_of props) = false
  \/ empty_sequence (results_of props) = true ->
  respond call err body
  = Ok (Callback [Err [("message",
          Prim (Str "Results object not found or is not as expected"))]]).
Proof.
  intros Hcall Herr Hbody Hparse Hres.
  rewrite (mutate_respond _ _ _ _ Hcall).
  unfold handleEsriResponse.
  rewrite Herr, Hbody, Hparse. cbn [bind truthy negb object_keys].
  rewrite first_results. fold (results_of props). cbn [bind].
  assert (Hun : (if negb (truthy (results_of props)) then Ok true
                 else let! len := get_prop (results_of props) "length" in
                      Ok (negb (truthy len))) = Ok true).
  { revert Hres. generalize (results_of props). clear. intros v Hres.
    unfold list_like in Hres.
    destruct v as [[| |b|n|s]|l|ps|ps]; cbn [truthy negb bind prim_truthy];
      try reflexivity.
    - destruct b; reflexivity.
    - destruct (num_truthy n); reflexivity.
    - cbn in Hres. destruct Hres as [H|[H|H]]; try discriminate H.
    - destruct Hres as [H|[H|H]]; try discriminate H.
      destruct l; [reflexivity|discriminate H].
    - cbn [get_prop missing empty_sequence] in *.
      destruct Hres as [H|[H|H]]; try discriminate H.
      destruct (lookup_prop (Prim Undefined) ps "length") as [[]| | |];
        try discriminate H; reflexivity.
    - cbn [get_prop missing empty_sequence] in *.
      destruct Hres as [H|[H|H]]; try discriminate H.
      destruct (lookup_prop (Prim Undefined) ps "length") as [[]| | |];
        try discriminate H; reflexivity. }
  rewrite Hun. reflexivity.
Qed.

Lemma map_result_Forall2 {A B} (f : A -> result B) (l : list A) (l' : list B) :
  Forall2 (fun x y => f x = Ok y) l l' <-> map_result f l = Ok l'.
Proof.
  split.
  - induction 1 as [|x y l l' Hxy _ IH]; cbn [map_result]; [reflexivity|].
    rewrite Hxy. cbn [bind]. rewrite IH. reflexivity.
  - revert l'. induction l as [|x l IH]; cbn [map_result]; intros l' H.
    + inversion H. constructor.
    + destruct (f x) as [y| |] eqn:Hx; try discriminate H. cbn [bind] in H.
      destruct (map_result f l) as [ys| |]; try discriminate H.
      inversion H; subst. constructor; [exact Hx|now apply IH].
Qed.

(** C5, amended: a query whose transport reports no error and whose body
    carries no error and an array of features, on each of which the
    converter returns, ends in [callback(null, collection)]; the
    collection's features are the converted features of the body, in the
    body's order. *)
Theorem get_feature_collection err body berr esriFeatures geojsonFeatures :
  truthy err = false ->
  get_prop body "error" = Ok berr ->
  truthy berr = false ->
  get_prop body "features" = Ok (Arr esriFeatures) ->
  Forall2 (fun f g => arcgis_parse f = Ok g) esriFeatures geojsonFeatures ->
  _getRequestCallback ToPrimitive NumberToString arcgis_parse err body
  = Ok (Callback [Prim Null;
                  Obj [("type", Prim (Str "FeatureCollection"));
                       ("features", Arr geojsonFeatures)]]).
Proof.
  intros Herr Hberr Hfalsy Hfeatures Hall.
  apply map_result_Forall2 in Hall.
  unfold _getRequestCallback.
  rewrite Herr, Hberr. cbn [bind]. rewrite Hfalsy, Hfeatures. cbn [bind truthy negb].
  rewrite Hall. reflexivity.
Qed.

(** A feature on which the converter throws makes the handler of a query
    throw with it; the callback is not called. *)
Lemma get_conversion_throws err body berr esriFeatures e :
  truthy err = false ->
  get_prop body "error" = Ok berr ->
  truthy berr = false ->
  get_prop body "features" = Ok (Arr esriFeatures) ->
  map_result arcgis_parse esriFeatures = Throw e ->
  _getRequestCallback ToPrimitive NumberToString arcgis_parse err body = Throw e.
Proof.
  intros Herr Hberr Hfalsy Hfeatures Hthrow.
  unfold _getRequestCallback.
  rewrite Herr, Hberr. cbn [bind]. rewrite Hfalsy, Hfeatures. cbn [bind truthy negb].
  rewrite Hthrow. reflexivity.
Qed.

(** C10: when the transport of a query reports no error and hands over a
    [null] or [undefined] body, reading [body.error] throws: the handler
    calls the callback on no path, the "features are undefined" one
    included.  A handler that returns has had a body that is neither. *)
Theorem get_handler_null_body err body :
  truthy err = false ->
  body = Prim Undefined \/ body = Prim Null ->
  _getRequestCallback ToPrimitive NumberToString arcgis_parse err body
  = Throw TypeError
  /\ forall out,
       _getRequestCallback ToPrimitive NumberToString arcgis_parse err body
       <> Ok out.
Proof.
  intros Herr Hbody.
  assert (H : _getRequestCallback ToPrimitive NumberToString arcgis_parse err body
              = Throw TypeError).
  { unfold _getRequestCallback. rewrite Herr.
    destruct Hbody as [-> | ->]; reflexivity. }
  split; [exact H|]. intros out Hout. rewrite H in Hout. discriminate.
Qed.

(** A body that is there and does not parse: [JSON.parse] throws, and the
    handler with it. *)
Lemma handler_unparsable err body e :
  truthy err = false ->
  truthy body = true ->
  JSON_parse body = Throw e ->
  handler err body = Throw e.
Proof.
  intros Herr Hbody Hparse. unfold handleEsriResponse.
  now rewrite Herr, Hbody, Hparse.
Qed.

(** A body that is not there: the handler reports it. *)
Lemma handler_absent_body err body :
  truthy err = false ->
  truthy body = false ->
  handler err body
  = Ok (Callback [Err [("message",
          Prim (Str "Response body was null or could not be parsed"))]]).
Proof.
  intros Herr Hbody. unfold handleEsriResponse.
  now rewrite Herr, Hbody; cbn [bind]; rewrite Hbody.
Qed.

End HandlerProperties.


Section StoreProperties.

Variable stringify : gmap nat (list (string * sval)) -> sval -> result unit.

Implicit Types st : gmap nat (list (string * sval)).

Lemma bind_Ok {A B} (r : result A) (k : A -> result B) b :
  bind r k = Ok b -> exists a, r = Ok a /\ k a = Ok b.
Proof. destruct r; simpl; [eauto|discriminate|discriminate]. Qed.

Lemma lookup_assign_prop {A} (d : A) (o : list (string * A)) k v k' :
  lookup_prop d (assign_prop o k v) k'
  = if String.eqb k k' then v else lookup_prop d o k'.
Proof.
  induction o as [|[k0 v0] o IH]; simpl.
  - reflexivity.
  - destruct (String.eqb_spec k0 k) as [->|Hne]; simpl.
    + destruct (String.eqb_spec k k'); reflexivity.
    + rewrite IH. destruct (String.eqb_spec k0 k') as [->|]; [|reflexivity].
      destruct (String.eqb_spec k k'); [congruence|reflexivity].
Qed.

Lemma lookup_prop_absent {A} (d : A) (o : list (string * A)) k :
  existsb (String.eqb k) (List.map fst o) = false -> lookup_prop d o k = d.
Proof.
  induction o as [|[k0 v0] o IH]; simpl; [reflexivity|].
  rewrite String.eqb_sym. destruct (String.eqb k0 k); simpl; [discriminate|exact IH].
Qed.

Lemma sget_ref st l o k :
  st !! l = Some o -> sget st (SRef l) k = Ok (lookup_prop (SPrim Undefined) o k).
Proof. intros H. simpl. now rewrite H. Qed.

Lemma sput_ref st l o k x :
  st !! l = Some o -> sput st (SRef l) k x = Ok (<[l := assign_prop o k x]> st).
Proof. intros H. simpl. now rewrite H. Qed.

Lemma sput_frame st v k x st' l :
  sput st v k x = Ok st' -> SRef l <> v -> st' !! l = st !! l.
Proof.
  destruct v as [p|l']; simpl; [discriminate|].
  destruct (st !! l'); [|discriminate].
  intros [= <-] Hne. apply lookup_insert_ne. congruence.
Qed.

Lemma alloc_spec st o :
  exists l, alloc st o = (<[l := o]> st, l) /\ st !! l = None.
Proof.
  exists (fresh (dom st)). split; [reflexivity|].
  apply not_elem_of_dom. apply is_fresh.
Qed.

(** [defaults] writes to its destination only. *)
Lemma defaults_loop_frame keys : forall st dest src st',
  defaults_loop st dest src keys = Ok st' ->
  forall l, l <> dest -> st' !! l = st !! l.
Proof.
  induction keys as [|key rest IH]; cbn [defaults_loop]; intros st dest src st' H l Hl.
  - now inversion H.
  - apply bind_Ok in H as (value & _ & H).
    apply bind_Ok in H as (st1 & Hst1 & H).
    rewrite (IH _ _ _ _ H l Hl).
    destruct (is_undefined value).
    + apply bind_Ok in Hst1 as (x & _ & Hput).
      apply (sput_frame _ _ _ _ _ _ Hput). congruence.
    + now inversion Hst1.
Qed.

Lemma defaults_frame st dest src st' :
  defaults st dest src = Ok st' ->
  forall l, l <> dest -> st' !! l = st !! l.
Proof.
  unfold defaults. intros H. apply bind_Ok in H as (keys & _ & H).
  now apply defaults_loop_frame with (keys := keys) (src := src).
Qed.

(** [get] writes to its parameter object only. *)
Lemma get_frame st this p st' req :
  get stringify st this (SRef p) = Ok (st', req) ->
  forall l, l <> p -> st' !! l = st !! l.
Proof.
  unfold get. intros H l Hl.
  apply bind_Ok in H as (settings & _ & H).
  apply bind_Ok in H as (dro & _ & H).
  apply bind_Ok in H as (st1 & Hd & H).
  apply bind_Ok in H as (token & _ & H).
  apply bind_Ok in H as (st2 & Hp & H).
  apply bind_Ok in H as (u & _ & H).
  apply bind_Ok in H as (settings2 & _ & H).
  apply bind_Ok in H as (url & _ & H).
  inversion H; subst.
  rewrite (sput_frame _ _ _ _ _ l Hp) by congruence.
  apply (defaults_frame _ _ _ _ Hd l Hl).
Qed.

Lemma is_undefined_eq v : is_undefined v = true -> v = SPrim Undefined.
Proof. destruct v as [[]|]; simpl; congruence. Qed.

(** Keys that the destination defines are left alone. *)
Lemma defaults_loop_defined keys : forall st dest src o,
  st !! dest = Some o ->
  Forall (fun k => is_undefined (lookup_prop (SPrim Undefined) o k) = false) keys ->
  defaults_loop st dest src keys = Ok st.
Proof.
  induction keys as [|key rest IH]; cbn [defaults_loop]; intros st dest src o Ho Hall.
  - reflexivity.
  - inversion Hall as [|? ? Hkey Hrest]; subst.
    rewrite (sget_ref _ _ _ _ Ho). cbn [bind]. rewrite Hkey. cbn [bind].
    now apply IH with (o := o).
Qed.

Lemma defaults_defined st dest s o so :
  st !! dest = Some o ->
  st !! s = Some so ->
  Forall (fun k => is_undefined (lookup_prop (SPrim Undefined) o k) = false)
         (List.map fst so) ->
  defaults st dest (SRef s) = Ok st.
Proof.
  intros Ho Hso Hall. unfold defaults, source_keys. rewrite Hso. cbn [bind].
  now apply defaults_loop_defined with (o := o).
Qed.

(** Keys that the destination leaves undefined are taken from the source. *)
Lemma defaults_loop_fill keys : forall st dest s o so,
  s <> dest ->
  st !! dest = Some o ->
  st !! s = Some so ->
  exists o',
    defaults_loop st dest (SRef s) keys = Ok (<[dest := o']> st)
    /\ forall k,
         lookup_prop (SPrim Undefined) o' k
         = if is_undefined (lookup_prop (SPrim Undefined) o k)
              && existsb (String.eqb k) keys
           then lookup_prop (SPrim Undefined) so k
           else lookup_prop (SPrim Undefined) o k.
Proof.
  induction keys as [|key rest IH]; cbn [defaults_loop]; intros st dest s o so Hne Ho Hso.
  - exists o. split; [now rewrite insert_id|].
    intros k. cbn [existsb]. now rewrite andb_false_r.
  - rewrite (sget_ref _ _ _ _ Ho). cbn [bind].
    destruct (is_undefined (lookup_prop (SPrim Undefined) o key)) eqn:Hund.
    + rewrite (sget_ref _ _ _ _ Hso). cbn [bind].
      rewrite (sput_ref _ _ _ _ _ Ho). cbn [bind].
      set (o1 := assign_prop o key (lookup_prop (SPrim Undefined) so key)).
      destruct (IH (<[dest := o1]> st) dest s o1 so Hne) as (o' & Hloop & Hlook).
      { apply lookup_insert_eq. }
      { now rewrite lookup_insert_ne. }
      exists o'. split; [now rewrite Hloop, insert_insert_eq|].
      intros k. rewrite Hlook. unfold o1. rewrite lookup_assign_prop.
      cbn [existsb]. rewrite (String.eqb_sym k key).
      destruct (String.eqb_spec key k) as [->|Hk]; cbn [orb].
      * rewrite Hund. cbn [andb].
        now destruct (is_undefined _ && _).
      * reflexivity.
    + cbn [bind].
      destruct (IH st dest s o so Hne Ho Hso) as (o' & Hloop & Hlook).
      exists o'. split; [exact Hloop|].
      intros k. rewrite Hlook. cbn [existsb]. rewrite (String.eqb_sym k key).
      destruct (String.eqb_spec key k) as [->|Hk]; cbn [orb]; [|reflexivity].
      now rewrite Hund.
Qed.

(** [defaults(dest, source)] on two distinct objects: per key, the
    destination's value unless it is [undefined], else the source's. *)
Lemma defaults_spec st dest s o so :
  s <> dest ->
  st !! dest = Some o ->
  st !! s = Some so ->
  exists o',
    defaults st dest (SRef s) = Ok (<[dest := o']> st)
    /\ forall k,
         lookup_prop (SPrim Undefined) o' k
         = if is_undefined (lookup_prop (SPrim Undefined) o k)
           then lookup_prop (SPrim Undefined) so k
           else lookup_prop (SPrim Undefined) o k.
Proof.
  intros Hne Ho Hso. unfold defaults. cbn [source_keys]. rewrite Hso. cbn [bind].
  destruct (defaults_loop_fill (List.map fst so) st dest s o so Hne Ho Hso)
    as (o' & Hloop & Hlook).
  exists o'. split; [exact Hloop|].
  intros k. rewrite Hlook.
  destruct (is_undefined (lookup_prop (SPrim Undefined) o k)) eqn:Hund; [|reflexivity].
  cbn [andb]. destruct (existsb (String.eqb k) (List.map fst so)) eqn:Hin; [reflexivity|].
  rewrite (lookup_prop_absent _ _ _ Hin). now apply is_undefined_eq.
Qed.

(** The parameters a query sends: per key the caller's value unless it is
    [undefined], else the stored default; and under [token] what the
    instance holds as [this.token]. *)
Lemma get_effective_parameters st this p s d this_o po dflt :
  st !! this = Some this_o ->
  lookup_prop (SPrim Undefined) this_o "settings" = SRef s ->
  forall s_o,
  st !! s = Some s_o ->
  lookup_prop (SPrim Undefined) s_o "defaultResultOptions" = SRef d ->
  st !! p = Some po ->
  st !! d = Some dflt ->
  p <> this -> p <> s -> p <> d ->
  forall st' req,
  get stringify st this (SRef p) = Ok (st', req) ->
  qs req = SRef p
  /\ exists eff,
       st' !! p = Some eff
       /\ forall k,
            lookup_prop (SPrim Undefined) eff k
            = if String.eqb "token" k
              then lookup_prop (SPrim Undefined) this_o "token"
              else if is_undefined (lookup_prop (SPrim Undefined) po k)
                   then lookup_prop (SPrim Undefined) dflt k
                   else lookup_prop (SPrim Undefined) po k.
Proof.
  intros Hthis Hsettings s_o Hs Hdro Hp Hd Hpt Hps Hpd st' req.
  unfold get.
  rewrite (sget_ref _ _ _ _ Hthis), Hsettings. cbn [bind].
  rewrite (sget_ref _ _ _ _ Hs), Hdro. cbn [bind].
  destruct (defaults_spec st p d po dflt) as (o' & Hdef & Hlook); [congruence|done|done|].
  rewrite Hdef. cbn [bind].
  rewrite (sget_ref _ this this_o) by (now rewrite lookup_insert_ne).
  cbn [bind].
  rewrite (sput_ref _ p o') by apply lookup_insert_eq.
  cbn [bind]. rewrite insert_insert_eq.
  intros H. apply bind_Ok in H as (u & _ & H).
  apply bind_Ok in H as (settings2 & _ & H).
  apply bind_Ok in H as (url & _ & H).
  inversion H; subst. cbn [qs]. split; [reflexivity|].
  eexists. split; [apply lookup_insert_eq|].
  intros k. rewrite lookup_assign_prop.
  destruct (String.eqb "token" k); [reflexivity|apply Hlook].
Qed.

Ltac store_lookup :=
  repeat first [ rewrite lookup_insert_eq
               | rewrite lookup_insert_ne by congruence ];
  first [ reflexivity | eassumption ].

Ltac store_step :=
  first [ erewrite sget_ref by store_lookup
        | erewrite sput_ref by store_lookup ];
  cbn [bind].

Ltac eval_props :=
  repeat match goal with
         | |- context [lookup_prop ?d ?o ?k] =>
             let r := eval vm_compute in (lookup_prop d o k) in
             progress change (lookup_prop d o k) with r
         | |- context [assign_prop ?o ?k ?v] =>
             let r := eval cbv in (assign_prop o k v) in
             progress change (assign_prop o k v) with r
         end.

Lemma builtin_all_defined :
  Forall (fun k => is_undefined (lookup_prop (SPrim Undefined) builtinResultOptions k)
                   = false)
         (List.map fst builtinResultOptions).
Proof. repeat constructor. Qed.

(** C7, amended: constructed without options, or from options in which
    [defaultResultOptions] is absent or [undefined], the instance holds as
    its default result options [returnCountsOnly: false],
    [returnIdsOnly: false], [returnGeometry: true], [outSR: '4326'],
    [outFields: '*'], [f: 'json']; constructed from options with a
    [defaultResultOptions] object, it holds per key the caller's value
    unless that is [undefined], and else the value above. *)
Theorem constructor_default_result_options st options :
  (struthy options = false
   \/ (exists o oo, options = SRef o /\ st !! o = Some oo
        /\ lookup_prop (SPrim Undefined) oo "defaultResultOptions" = SPrim Undefined) ->
   exists st' this r,
     FeatureService st options = Ok (st', this)
     /\ stored_defaults st' this = Ok (SRef r)
     /\ st' !! r = Some [("returnCountsOnly", SPrim (Bool false));
                       ("returnIdsOnly", SPrim (Bool false));
                       ("returnGeometry", SPrim (Bool true));
                       ("outSR", SPrim (Str "4326"));
                       ("outFields", SPrim (Str "*"));
                       ("f", SPrim (Str "json"))])
  /\
  (forall o oo d given,
     options = SRef o -> st !! o = Some oo ->
     lookup_prop (SPrim Undefined) oo "defaultResultOptions" = SRef d ->
     st !! d = Some given ->
     exists st' this eff,
       FeatureService st options = Ok (st', this)
       /\ stored_defaults st' this = Ok (SRef d)
       /\ st' !! d = Some eff
       /\ forall k,
            lookup_prop (SPrim Undefined) eff k
            = if is_undefined (lookup_prop (SPrim Undefined) given k)
              then lookup_prop (SPrim Undefined)
                     [("returnCountsOnly", SPrim (Bool false));
                      ("returnIdsOnly", SPrim (Bool false));
                      ("returnGeometry", SPrim (Bool true));
                      ("outSR", SPrim (Str "4326"));
                      ("outFields", SPrim (Str "*"));
                      ("f", SPrim (Str "json"))] k
              else lookup_prop (SPrim Undefined) given k).
Proof.
  unfold FeatureService.
  destruct (alloc_spec st []) as (this & -> & Hthis).
  destruct (alloc_spec (<[this := []]> st) builtinResultOptions) as (dro & -> & Hdro).
  destruct (alloc_spec (<[dro := builtinResultOptions]> (<[this := []]> st))
              [("defaultResultOptions", SRef dro)]) as (ds & -> & Hds).
  apply lookup_insert_None in Hdro as [Hdro Htd].
  apply lookup_insert_None in Hds as [Hds Hrd].
  apply lookup_insert_None in Hds as [Hds Htds].
  split.
  - intros [Hfalsy | (o & oo & -> & Ho & Hlack)].
    + destruct options as [p|l]; [|discriminate Hfalsy].
      cbn [struthy] in *. rewrite Hfalsy.
      store_step. eval_props. store_step. eval_props.
      store_step. eval_props. cbn [struthy]. rewrite Hfalsy.
      eexists _, this, dro. split; [reflexivity|]. split.
      * unfold stored_defaults. store_step. eval_props. store_step. reflexivity.
      * store_lookup.
    + assert (o <> this) by congruence.
      assert (o <> dro) by congruence.
      assert (o <> ds) by congruence.
      cbn [struthy]. store_step. eval_props. store_step. eval_props.
      match goal with
      | |- context [defaults ?S o (SRef ds)] =>
          destruct (defaults_spec S o ds oo [("defaultResultOptions", SRef dro)])
            as (o' & -> & Hlook); [congruence|store_lookup|store_lookup|]
      end.
      cbn [bind].
      assert (Ho' : lookup_prop (SPrim Undefined) o' "defaultResultOptions" = SRef dro).
      { rewrite Hlook, Hlack. reflexivity. }
      store_step. store_step. rewrite Ho'. cbn [struthy].
      store_step. eval_props. store_step. eval_props. store_step. eval_props.
      erewrite (defaults_defined _ dro dro builtinResultOptions builtinResultOptions)
        by (first [store_lookup | exact builtin_all_defined]).
      cbn [bind]. store_step.
      eexists _, this, dro. split; [reflexivity|]. split.
      * unfold stored_defaults. store_step. eval_props. store_step.
        rewrite lookup_assign_prop, String.eqb_refl. reflexivity.
      * store_lookup.
  - intros o oo d given -> Ho Hgiven Hd.
    assert (o <> this) by congruence.
    assert (o <> dro) by congruence.
    assert (o <> ds) by congruence.
    assert (d <> this) by congruence.
    assert (d <> dro) by congruence.
    assert (d <> ds) by congruence.
    cbn [struthy]. store_step. eval_props. store_step. eval_props.
    erewrite (defaults_defined _ o ds oo [("defaultResultOptions", SRef dro)])
      by (first [store_lookup
                | constructor; [cbn [fst]; now rewrite Hgiven|constructor] ]).
    cbn [bind]. store_step. store_step. rewrite Hgiven. cbn [struthy].
    store_step. eval_props. store_step. eval_props. store_step. eval_props.
    match goal with
    | |- context [defaults ?S d (SRef dro)] =>
        destruct (defaults_spec S d dro given builtinResultOptions)
          as (o' & -> & Hlook); [congruence|store_lookup|store_lookup|]
    end.
    cbn [bind].
    destruct (decide (o = d)) as [->|Hod].
    + assert (given = oo) by congruence. subst given.
      store_step.
      eexists _, this, _. split; [reflexivity|]. split; [|split].
      * unfold stored_defaults. store_step. eval_props. store_step.
        rewrite lookup_assign_prop, String.eqb_refl. reflexivity.
      * store_lookup.
      * intros k. rewrite lookup_assign_prop, Hlook.
        destruct (String.eqb_spec "defaultResultOptions" k) as [<-|]; [|reflexivity].
        now rewrite Hgiven.
    + store_step.
      eexists _, this, _. split; [reflexivity|]. split; [|split].
      * unfold stored_defaults. store_step. eval_props. store_step.
        rewrite lookup_assign_prop, String.eqb_refl. reflexivity.
      * store_lookup.
      * exact Hlook.
Qed.


End StoreProperties.

Section MutationProperties.

Variable JSON_parse : value -> result value.
Variable JSON_stringify : value -> prim.
Variable ToPrimitive : hint -> value -> result prim.
Variable StringToNumber : string -> number.
Variable NumberToString : number -> string.
Variable arcgis_convert : value -> result value.

Local Abbreviation add' :=
  (add JSON_parse JSON_stringify ToPrimitive NumberToString arcgis_convert).
Local Abbreviation update' :=
  (update JSON_parse JSON_stringify ToPrimitive StringToNumber NumberToString
          arcgis_convert).
Local Abbreviation update_feature' :=
  (update_feature ToPrimitive StringToNumber arcgis_convert).
Local Abbreviation mutate' :=
  (mutate JSON_parse JSON_stringify ToPrimitive StringToNumber NumberToString
          arcgis_convert).

(** C4, as the code has it: a body that is there and that [JSON.parse]
    rejects makes the handler of a mutation throw the SyntaxError; the
    callback is not called. *)
Theorem mutation_unparsable_body_throws st this m call err body :
  mutate' st this m = Ok call ->
  truthy err = false ->
  truthy body = true ->
  JSON_parse body = Throw SyntaxError ->
  respond call err body = Throw SyntaxError.
Proof.
  intros Hcall Herr Hbody Hparse.
  rewrite (mutate_respond _ _ _ _ _ _ _ _ _ _ Hcall).
  now apply handler_unparsable.
Qed.

(** The feature an update sends is the one [update_feature] made. *)
Lemma update_features st this geojson call :
  update' st this geojson = Ok call ->
  exists esriJson,
    update_feature' geojson = Ok esriJson
    /\ lookup_prop (SPrim Undefined) (form (request call)) "features"
       = SPrim (JSON_stringify (Arr [esriJson])).
Proof.
  unfold update. intros H.
  apply bind_Ok in H as (esriJson & Hfeature & H).
  apply bind_Ok in H as (settings & _ & H).
  apply bind_Ok in H as (url & _ & H).
  apply bind_Ok in H as (token & _ & H).
  inversion H; subst. exists esriJson. split; [exact Hfeature|reflexivity].
Qed.

(** What [update_feature] returns, read back: the conversion, the read of
    [OBJECTID], its coercion and the write. *)
Lemma update_feature_inv geojson esriJson' :
  update_feature' geojson = Ok esriJson' ->
  exists esriJson attributes objectid n attributes',
    arcgis_convert geojson = Ok esriJson
    /\ get_prop esriJson "attributes" = Ok attributes
    /\ get_prop attributes "OBJECTID" = Ok objectid
    /\ to_number ToPrimitive StringToNumber objectid = Ok n
    /\ put_prop attributes "OBJECTID" (Prim (Num n)) = Ok attributes'
    /\ esriJson' = with_attributes esriJson attributes'.
Proof.
  unfold update_feature. intros H.
  apply bind_Ok in H as (esriJson & Hconv & H).
  apply bind_Ok in H as (attributes & Hattrs & H).
  apply bind_Ok in H as (objectid & Hoid & H).
  apply bind_Ok in H as (n & Hn & H).
  apply bind_Ok in H as (attributes' & Hput & H).
  exists esriJson, attributes, objectid, n, attributes'.
  repeat split; try assumption.
  destruct esriJson; inversion H; reflexivity.
Qed.

(** C8: the [features] field of the form an add or an update posts is the
    serialization of an array of exactly one element: for an add the
    converted feature, for an update the converted feature with the
    [OBJECTID] of its attributes made a number. *)
Theorem mutation_sends_one_feature st this geojson call :
  (add' st this geojson = Ok call ->
   exists esriJson,
     arcgis_convert geojson = Ok esriJson
     /\ lookup_prop (SPrim Undefined) (form (request call)) "features"
        = SPrim (JSON_stringify (Arr [esriJson])))
  /\ (update' st this geojson = Ok call ->
      exists esriJson attributes objectid n attributes',
        arcgis_convert geojson = Ok esriJson
        /\ get_prop esriJson "attributes" = Ok attributes
        /\ get_prop attributes "OBJECTID" = Ok objectid
        /\ to_number ToPrimitive StringToNumber objectid = Ok n
        /\ put_prop attributes "OBJECTID" (Prim (Num n)) = Ok attributes'
        /\ lookup_prop (SPrim Undefined) (form (request call)) "features"
           = SPrim (JSON_stringify (Arr [with_attributes esriJson attributes']))).
Proof.
  split.
  - unfold add. intros H.
    apply bind_Ok in H as (esriJson & Hconv & H).
    apply bind_Ok in H as (settings & _ & H).
    apply bind_Ok in H as (url & _ & H).
    apply bind_Ok in H as (token & _ & H).
    inversion H; subst. exists esriJson. split; [exact Hconv|reflexivity].
  - intros H.
    destruct (update_features _ _ _ _ H) as (esriJson' & Hfeature & Hform).
    destruct (update_feature_inv _ _ Hfeature)
      as (esriJson & attributes & objectid & n & attributes'
          & Hconv & Hattrs & Hoid & Hn & Hput & ->).
    exists esriJson, attributes, objectid, n, attributes'.
    repeat split; assumption.
Qed.

(** X22: an update makes the attribute named [OBJECTID] of the converted
    feature a number before the feature is serialized, whether it was a
    number, a string or any other primitive; the other attributes are as
    converted. *)
Theorem update_coerces_OBJECTID st this geojson call props attrs p :
  update' st this geojson = Ok call ->
  arcgis_convert geojson = Ok (Obj props) ->
  lookup_prop (Prim Undefined) props "attributes" = Obj attrs ->
  lookup_prop (Prim Undefined) attrs "OBJECTID" = Prim p ->
  exists esriJson attrs',
    lookup_prop (SPrim Undefined) (form (request call)) "features"
    = SPrim (JSON_stringify (Arr [esriJson]))
    /\ get_prop esriJson "attributes" = Ok (Obj attrs')
    /\ lookup_prop (Prim Undefined) attrs' "OBJECTID"
       = Prim (Num (prim_to_number StringToNumber p))
    /\ forall k, k <> "OBJECTID" ->
         lookup_prop (Prim Undefined) attrs' k = lookup_prop (Prim Undefined) attrs k.
Proof.
  intros Hcall Hconv Hattrs Hold.
  destruct (update_features _ _ _ _ Hcall) as (esriJson & Hfeature & Hform).
  exists esriJson, (assign_prop attrs "OBJECTID" (Prim (Num (prim_to_number StringToNumber p)))).
  split; [exact Hform|].
  unfold update_feature in Hfeature. rewrite Hconv in Hfeature.
  cbn [get_prop bind] in Hfeature. rewrite Hattrs in Hfeature.
  cbn [get_prop bind] in Hfeature. rewrite Hold in Hfeature.
  cbn [to_number bind put_prop] in Hfeature. inversion Hfeature; subst.
  cbn [get_prop]. rewrite !lookup_assign_prop, String.eqb_refl.
  split; [reflexivity|]. split; [reflexivity|].
  intros k Hk. rewrite lookup_assign_prop.
  destruct (String.eqb_spec "OBJECTID" k); [congruence|reflexivity].
Qed.

End MutationProperties.

(** * The client on literal inputs *)

Import Examples.

(** C2: the token a query sends is [this.token], which the constructor
    never sets, not the token of the configuration: with options
    [{url: 'u', token: 'secret'}] and parameters
    [{where: '1=1', token: 'mine'}] the query goes out with [token]
    [undefined]. *)
Theorem get_token_is_not_the_configured_one :
  token_run = Ok (SPrim (Str "secret"), SPrim Undefined).
Proof. vm_compute. reflexivity. Qed.


(** C3: the update does not coerce the attribute named by the configured
    identifier field: with [idField] configured as [FID] it leaves the
    attribute [FID] the string it was, and writes a number, here NaN, under
    [OBJECTID]. *)
Lemma update_leaves_idField_attribute :
  fid_run = Ok (SPrim (Str "FID"), Prim (Str "7"), Prim (Num NaN))
  /\ is_number (Prim (Str "7")) = false.
Proof. split; [vm_compute; reflexivity|reflexivity]. Qed.

(** The readings the statements rest on. *)

(** C7 as stated fails: options whose [defaultResultOptions] is [null] have
    no such sub-object, and the instance constructed from them holds [null]
    as its default result options, not an object with the built-in
    defaults: [defaults] fills what is [undefined] only. *)
Lemma constructor_keeps_null_result_options :
  null_run = Ok (SPrim Null) /\ forall r, SPrim Null <> SRef r.
Proof. split; [vm_compute; reflexivity|discriminate]. Qed.

(** C5 as stated fails: on a feature the converter throws on, here [null],
    the handler of a query throws with it and the callback is not called. *)
Lemma get_conversion_throw_not_called_back :
  sample_getRequestCallback (Prim Null) body_null_feature = Throw TypeError.
Proof. vm_compute. reflexivity. Qed.

(** A string under the first key carries a [length] and passes the test of
    line 176; its first character is then neither success nor error. *)
Remark string_results_are_list_like :
  handleEsriResponse Sample.JSON_parse Sample.ToPrimitive Sample.NumberToString
    (Prim Null) (Prim (Str body_string_results))
  = Ok (Callback [Err [("message", Prim (Str "Feature service error: unexpected result"));
                       ("result", Prim (Str "a"))]]).
Proof. vm_compute. reflexivity. Qed.

(** ** The theorems at work *)

Lemma mutation_success_callback_null_witness :
  exists call,
    sample_mutate constructed.1 constructed.2 (Add oid_feature) = Ok call
    /\ respond call (Prim Null) (Prim (Str body_success)) = Ok (Callback [Prim Null]).
Proof.
  eexists. split; [reflexivity|].
  eapply (mutation_success_callback_null
            Sample.JSON_parse Sample.JSON_stringify Sample.ToPrimitive
            Sample.StringToNumber Sample.NumberToString Sample.convert
            constructed.1 constructed.2 (Add oid_feature)).
  - reflexivity.
  - reflexivity.
  - reflexivity.
  - vm_compute. reflexivity.
  - reflexivity.
  - reflexivity.
Defined.

Lemma mutation_unusable_results_witness :
  exists call,
    sample_mutate constructed.1 constructed.2 (Delete (SPrim (Str "7"))) = Ok call
    /\ respond call (Prim Null) (Prim (Str body_no_results))
       = Ok (Callback [Err [("message",
               Prim (Str "Results object not found or is not as expected"))]]).
Proof.
  eexists. split; [reflexivity|].
  eapply (mutation_unusable_results
            Sample.JSON_parse Sample.JSON_stringify Sample.ToPrimitive
            Sample.StringToNumber Sample.NumberToString Sample.convert
            constructed.1 constructed.2 (Delete (SPrim (Str "7")))).
  - reflexivity.
  - reflexivity.
  - reflexivity.
  - vm_compute. reflexivity.
  - right. right. reflexivity.
Defined.

Lemma mutation_unparsable_body_throws_witness :
  exists call,
    sample_mutate constructed.1 constructed.2 (Add oid_feature) = Ok call
    /\ respond call (Prim Null) (Prim (Str body_html)) = Throw SyntaxError.
Proof.
  eexists. split; [reflexivity|].
  eapply (mutation_unparsable_body_throws
            Sample.JSON_parse Sample.JSON_stringify Sample.ToPrimitive
            Sample.StringToNumber Sample.NumberToString Sample.convert
            constructed.1 constructed.2 (Add oid_feature)).
  - reflexivity.
  - reflexivity.
  - reflexivity.
  - vm_compute. reflexivity.
Defined.

Lemma get_feature_collection_witness :
  sample_getRequestCallback (Prim Null) body_features
  = Ok (Callback
          [Prim Null;
           Obj [("type", Prim (Str "FeatureCollection"));
                ("features",
                 Arr [Obj [("type", Prim (Str "Feature"));
                           ("properties", Obj [("a", Prim (Num (num_of_nat 1)))])];
                      Obj [("type", Prim (Str "Feature"));
                           ("properties", Obj [("a", Prim (Num (num_of_nat 2)))])]])]]).
Proof.
  apply (get_feature_collection Sample.ToPrimitive Sample.NumberToString
           Sample.parse (Prim Null) body_features (Prim Undefined)
           [Obj [("attributes", Obj [("a", Prim (Num (num_of_nat 1)))])];
            Obj [("attributes", Obj [("a", Prim (Num (num_of_nat 2)))])]]).
  - reflexivity.
  - reflexivity.
  - reflexivity.
  - reflexivity.
  - repeat constructor.
Defined.

Lemma get_handler_null_body_witness :
  sample_getRequestCallback (Prim Null) (Prim Undefined) = Throw TypeError
  /\ forall out, sample_getRequestCallback (Prim Null) (Prim Undefined) <> Ok out.
Proof.
  apply (get_handler_null_body Sample.ToPrimitive Sample.NumberToString
           Sample.parse (Prim Null) (Prim Undefined)).
  - reflexivity.
  - left. reflexivity.
Defined.

Lemma constructor_default_result_options_witness :
  (exists st' this r,
     FeatureService token_store (SRef 0) = Ok (st', this)
     /\ stored_defaults st' this = Ok (SRef r)
     /\ st' !! r = Some [("returnCountsOnly", SPrim (Bool false));
                       ("returnIdsOnly", SPrim (Bool false));
                       ("returnGeometry", SPrim (Bool true));
                       ("outSR", SPrim (Str "4326"));
                       ("outFields", SPrim (Str "*"));
                       ("f", SPrim (Str "json"))])
  /\ (exists st' this eff,
        FeatureService shared_store (SRef 0) = Ok (st', this)
        /\ stored_defaults st' this = Ok (SRef 1)
        /\ st' !! 1%nat = Some eff
        /\ forall k,
             lookup_prop (SPrim Undefined) eff k
             = if is_undefined
                    (lookup_prop (SPrim Undefined) [("outSR", SPrim (Str "102100"))] k)
               then lookup_prop (SPrim Undefined)
                      [("returnCountsOnly", SPrim (Bool false));
                       ("returnIdsOnly", SPrim (Bool false));
                       ("returnGeometry", SPrim (Bool true));
                       ("outSR", SPrim (Str "4326"));
                       ("outFields", SPrim (Str "*"));
                       ("f", SPrim (Str "json"))] k
               else lookup_prop (SPrim Undefined) [("outSR", SPrim (Str "102100"))] k).
Proof.
  split.
  - apply (proj1 (constructor_default_result_options token_store (SRef 0))).
    right.
    exists 0%nat, [("url", SPrim (Str "u")); ("token", SPrim (Str "secret"))].
    split; [reflexivity|]. split; [vm_compute; reflexivity|reflexivity].
  - apply (proj2 (constructor_default_result_options shared_store (SRef 0))
             0%nat [("url", SPrim (Str "u")); ("defaultResultOptions", SRef 1)]
             1%nat [("outSR", SPrim (Str "102100"))]).
    + reflexivity.
    + vm_compute. reflexivity.
    + reflexivity.
    + vm_compute. reflexivity.
Defined.


Lemma mutation_sends_one_feature_witness :
  (exists call,
     sample_add constructed.1 constructed.2 oid_feature = Ok call
     /\ exists esriJson,
          Sample.convert oid_feature = Ok esriJson
          /\ lookup_prop (SPrim Undefined) (form (request call)) "features"
             = SPrim (Sample.JSON_stringify (Arr [esriJson])))
  /\ (exists call,
        sample_update constructed.1 constructed.2 oid_feature = Ok call
        /\ exists esriJson attributes objectid n attributes',
             Sample.convert oid_feature = Ok esriJson
             /\ get_prop esriJson "attributes" = Ok attributes
             /\ get_prop attributes "OBJECTID" = Ok objectid
             /\ to_number Sample.ToPrimitive Sample.StringToNumber objectid = Ok n
             /\ put_prop attributes "OBJECTID" (Prim (Num n)) = Ok attributes'
             /\ lookup_prop (SPrim Undefined) (form (request call)) "features"
                = SPrim (Sample.JSON_stringify
                           (Arr [with_attributes esriJson attributes']))).
Proof.
  split.
  - eexists. split; [reflexivity|].
    apply (proj1 (mutation_sends_one_feature
                    Sample.JSON_parse Sample.JSON_stringify Sample.ToPrimitive
                    Sample.StringToNumber Sample.NumberToString Sample.convert
                    constructed.1 constructed.2 oid_feature _)).
    reflexivity.
  - eexists. split; [reflexivity|].
    apply (proj2 (mutation_sends_one_feature
                    Sample.JSON_parse Sample.JSON_stringify Sample.ToPrimitive
                    Sample.StringToNumber Sample.NumberToString Sample.convert
                    constructed.1 constructed.2 oid_feature _)).
    reflexivity.
Defined.

Lemma update_coerces_OBJECTID_witness :
  exists call,
    sample_update constructed.1 constructed.2 oid_feature = Ok call
    /\ exists esriJson attrs',
         lookup_prop (SPrim Undefined) (form (request call)) "features"
         = SPrim (Sample.JSON_stringify (Arr [esriJson]))
         /\ get_prop esriJson "attributes" = Ok (Obj attrs')
         /\ lookup_prop (Prim Undefined) attrs' "OBJECTID"
            = Prim (Num (prim_to_number Sample.StringToNumber (Str "7")))
         /\ forall k, k <> "OBJECTID" ->
              lookup_prop (Prim Undefined) attrs' k
              = lookup_prop (Prim Undefined)
                  [("OBJECTID", Prim (Str "7")); ("name", Prim (Str "a"))] k.
Proof.
  eexists. split; [reflexivity|].
  apply (update_coerces_OBJECTID
           Sample.JSON_parse Sample.JSON_stringify Sample.ToPrimitive
           Sample.StringToNumber Sample.NumberToString Sample.convert
           constructed.1 constructed.2 oid_feature _
           [("attributes",
             Obj [("OBJECTID", Prim (Str "7")); ("name", Prim (Str "a"))])]
           [("OBJECTID", Prim (Str "7")); ("name", Prim (Str "a"))]
           (Str "7")).
  - reflexivity.
  - reflexivity.
  - reflexivity.
  - reflexivity.
Defined.

(** * More of the two handlers *)

Section HandlerOutcomes.

Variable JSON_parse : value -> result value.
Variable JSON_stringify : value -> prim.
Variable ToPrimitive : hint -> value -> result prim.
Variable StringToNumber : string -> number.
Variable NumberToString : number -> string.
Variable arcgis_parse : value -> result value.
Variable arcgis_convert : value -> result value.

Local Abbreviation handler := (handleEsriResponse JSON_parse ToPrimitive NumberToString).
Local Abbreviation mutate' :=
  (mutate JSON_parse JSON_stringify ToPrimitive StringToNumber NumberToString
          arcgis_convert).
Local Abbreviation getRequestCallback :=
  (_getRequestCallback ToPrimitive NumberToString arcgis_parse).

(** The handler up to the first result: a body that parses to an object
    whose first key holds a non-empty array. *)
Lemma handler_first_result err body k first rest others :
  truthy err = false ->
  truthy body = true ->
  JSON_parse body = Ok (Obj ((k, Arr (first :: rest)) :: others)) ->
  handler err body
  = (let! success := get_prop first "success" in
     if truthy success then Ok (Callback [Prim Null])
     else
       let! rerr := get_prop first "error" in
       if truthy rerr then
         let! description := get_prop rerr "description" in
         let! e := new_error ToPrimitive NumberToString description in
         let! code := get_prop rerr "code" in
         Ok (Callback [Err (assign_prop e "code" code)])
       else
         let! e := new_error ToPrimitive NumberToString
                     (Str "Feature service error: unexpected result") in
         Ok (Callback [Err (assign_prop e "result" first)])).
Proof.
  intros Herr Hbody Hparse. unfold handleEsriResponse.
  rewrite Herr, Hbody, Hparse. cbn [bind truthy negb object_keys].
  rewrite first_results. cbn [bind truthy negb].
  rewrite array_length. cbn [bind truthy prim_truthy].
  rewrite num_of_nat_truthy. cbn [length Nat.eqb negb].
  rewrite first_element. reflexivity.
Qed.

(** X1: a transport error is handed to the callback as it is, by the handler
    of the mutations and by the handler of the query; the body is not looked
    at, be it absent or not JSON. *)
Theorem transport_error_passed_through err body :
  truthy err = true ->
  (forall st this m call,
     mutate' st this m = Ok call -> respond call err body = Ok (Callback [err]))
  /\ getRequestCallback err body = Ok (Callback [err]).
Proof.
  intros Herr. split.
  - intros st this m call Hcall.
    rewrite (mutate_respond _ _ _ _ _ _ _ _ _ _ Hcall).
    unfold handleEsriResponse. now rewrite Herr.
  - unfold _getRequestCallback. now rewrite Herr.
Qed.

(** X2: a mutation whose body is absent or empty, or parses to a falsy JSON
    value ([null], [false], [0], the empty string), is reported as "Response
    body was null or could not be parsed". *)
Theorem mutation_empty_json_reported st this m call err body :
  mutate' st this m = Ok call ->
  truthy err = false ->
  truthy body = false
  \/ (exists json, JSON_parse body = Ok json /\ truthy json = false) ->
  respond call err body
  = Ok (Callback [Err [("message",
          Prim (Str "Response body was null or could not be parsed"))]]).
Proof.
  intros Hcall Herr Hbody.
  rewrite (mutate_respond _ _ _ _ _ _ _ _ _ _ Hcall).
  destruct (truthy body) eqn:Htruthy.
  - destruct Hbody as [H | (json & Hparse & Hjson)]; [discriminate H|].
    unfold handleEsriResponse.
    rewrite Herr, Htruthy, Hparse. cbn [bind]. now rewrite Hjson.
  - now apply handler_absent_body.
Qed.

(** X3: a first result without a truthy [success] and with an [error]
    object is reported as an error that has the description for message and
    the code for [code]. *)
Theorem mutation_reported_error
    st this m call err body k first rest others success rerr description code :
  mutate' st this m = Ok call ->
  truthy err = false ->
  truthy body = true ->
  JSON_parse body = Ok (Obj ((k, Arr (first :: rest)) :: others)) ->
  get_prop first "success" = Ok success ->
  truthy success = false ->
  get_prop first "error" = Ok rerr ->
  truthy rerr = true ->
  get_prop rerr "description" = Ok (Prim (Str description)) ->
  get_prop rerr "code" = Ok code ->
  respond call err body
  = Ok (Callback [Err [("message", Prim (Str description)); ("code", code)]]).
Proof.
  intros Hcall Herr Hbody Hparse Hsuccess Hfalsy Hrerr Htruthy Hdescr Hcode.
  rewrite (mutate_respond _ _ _ _ _ _ _ _ _ _ Hcall).
  rewrite (handler_first_result _ _ _ _ _ _ Herr Hbody Hparse).
  rewrite Hsuccess. cbn [bind]. rewrite Hfalsy, Hrerr. cbn [bind].
  rewrite Htruthy, Hdescr. cbn [bind new_error to_string prim_to_string].
  rewrite Hcode. reflexivity.
Qed.

(** X4: a first result with neither a truthy [success] nor a truthy [error]
    is reported as "Feature service error: unexpected result", and the error
    carries the result. *)
Theorem mutation_unexpected_result
    st this m call err body k first rest others success rerr :
  mutate' st this m = Ok call ->
  truthy err = false ->
  truthy body = true ->
  JSON_parse body = Ok (Obj ((k, Arr (first :: rest)) :: others)) ->
  get_prop first "success" = Ok success ->
  truthy success = false ->
  get_prop first "error" = Ok rerr ->
  truthy rerr = false ->
  respond call err body
  = Ok (Callback [Err [("message",
                        Prim (Str "Feature service error: unexpected result"));
                       ("result", first)]]).
Proof.
  intros Hcall Herr Hbody Hparse Hsuccess Hfalsy Hrerr Hnone.
  rewrite (mutate_respond _ _ _ _ _ _ _ _ _ _ Hcall).
  rewrite (handler_first_result _ _ _ _ _ _ Herr Hbody Hparse).
  rewrite Hsuccess. cbn [bind]. rewrite Hfalsy, Hrerr. cbn [bind].
  now rewrite Hnone.
Qed.

(** X5: when the first result is [null] or [undefined], reading its
    [success] throws: the handler of a mutation throws a TypeError and the
    callback is not called. *)
Theorem mutation_null_result_throws st this m call err body k first rest others :
  mutate' st this m = Ok call ->
  truthy err = false ->
  truthy body = true ->
  JSON_parse body = Ok (Obj ((k, Arr (first :: rest)) :: others)) ->
  first = Prim Null \/ first = Prim Undefined ->
  respond call err body = Throw TypeError.
Proof.
  intros Hcall Herr Hbody Hparse Hfirst.
  rewrite (mutate_respond _ _ _ _ _ _ _ _ _ _ Hcall).
  rewrite (handler_first_result _ _ _ _ _ _ Herr Hbody Hparse).
  destruct Hfirst as [-> | ->]; reflexivity.
Qed.

Ltac invert_binds H :=
  repeat match type of H with
         | bind _ _ = Ok _ =>
             let x := fresh "x" in
             let Hx := fresh "Hx" in
             apply bind_Ok in H as (x & Hx & H)
         | (if ?c then _ else _) = Ok _ =>
             let Hc := fresh "Hc" in destruct c eqn:Hc
         end.

(** X6: whenever the handler of a mutation calls the callback, it hands it
    one argument: [null], or a truthy error.  No result is ever passed. *)
Theorem mutation_callback_one_argument st this m call err body args :
  mutate' st this m = Ok call ->
  respond call err body = Ok (Callback args) ->
  exists x, args = [x] /\ (x = Prim Null \/ truthy x = true).
Proof.
  intros Hcall H.
  rewrite (mutate_respond _ _ _ _ _ _ _ _ _ _ Hcall) in H.
  unfold handleEsriResponse in H.
  destruct (truthy err) eqn:Herr.
  - inversion H; subst. eauto.
  - invert_binds H; inversion H; subst; eauto.
Qed.

(** X7: the handler of a mutation calls [callback(null)] only for a body
    that parses to a value whose first key holds a value whose first element
    has a truthy [success]. *)
Theorem mutation_success_only_on_flag st this m call err body :
  mutate' st this m = Ok call ->
  respond call err body = Ok (Callback [Prim Null]) ->
  truthy err = false /\ truthy body = true
  /\ exists json keys results first success,
       JSON_parse body = Ok json
       /\ object_keys json = Ok keys
       /\ get_prop json (first_key keys) = Ok results
       /\ get_prop results (index_key 0) = Ok first
       /\ get_prop first "success" = Ok success
       /\ truthy success = true.
Proof.
  intros Hcall H.
  rewrite (mutate_respond _ _ _ _ _ _ _ _ _ _ Hcall) in H.
  unfold handleEsriResponse in H.
  destruct (truthy err) eqn:Herr.
  - inversion H; subst. discriminate Herr.
  - split; [reflexivity|].
    apply bind_Ok in H as (json & Hjson & H).
    destruct (truthy body) eqn:Hbody.
    + split; [reflexivity|].
      invert_binds H; try discriminate H.
      exists json. eauto 10.
    + inversion Hjson; subst. rewrite Hbody in H. cbn [negb] in H.
      invert_binds H; discriminate H.
Qed.

(** X8: a query whose body carries a truthy [error] is reported as an error
    that has the message, the code and the details of that object; no result
    is passed. *)
Theorem get_service_error err body berr message code details :
  truthy err = false ->
  get_prop body "error" = Ok berr ->
  truthy berr = true ->
  get_prop berr "message" = Ok (Prim (Str message)) ->
  get_prop berr "code" = Ok code ->
  get_prop berr "details" = Ok details ->
  getRequestCallback err body
  = Ok (Callback [Err [("message", Prim (Str message));
                       ("code", code); ("details", details)]]).
Proof.
  intros Herr Hberr Htruthy Hmessage Hcode Hdetails.
  unfold _getRequestCallback.
  rewrite Herr, Hberr. cbn [bind]. rewrite Htruthy, Hmessage.
  cbn [bind new_error to_string prim_to_string]. rewrite Hcode. cbn [bind].
  rewrite Hdetails. reflexivity.
Qed.

(** X9: a query whose body has no truthy [error] and whose [features] is
    falsy, or is not an array and has no truthy [map], is reported as
    "features are undefined". *)
Theorem get_features_undefined err body berr features :
  truthy err = false ->
  get_prop body "error" = Ok berr ->
  truthy berr = false ->
  get_prop body "features" = Ok features ->
  truthy features = false
  \/ (is_array features = false
      /\ exists m, get_prop features "map" = Ok m /\ truthy m = false) ->
  getRequestCallback err body
  = Ok (Callback [Err [("message", Prim (Str "features are undefined"))]]).
Proof.
  intros Herr Hberr Hfalsy Hfeatures Hcase.
  unfold _getRequestCallback.
  rewrite Herr, Hberr. cbn [bind]. rewrite Hfalsy, Hfeatures. cbn [bind].
  destruct (truthy features) eqn:Htruthy; [|reflexivity].
  destruct Hcase as [H | (Harr & m & Hm & Hmf)]; [discriminate H|].
  cbn [negb]. destruct features; try discriminate Harr;
    rewrite Hm; cbn [bind]; now rewrite Hmf.
Qed.

(** X10: a query whose [features] is truthy, is not an array and has a truthy
    [map] makes the handler throw a TypeError, as that [map] is data and is
    called; the callback is not called. *)
Theorem get_features_map_not_callable err body berr features m :
  truthy err = false ->
  get_prop body "error" = Ok berr ->
  truthy berr = false ->
  get_prop body "features" = Ok features ->
  truthy features = true ->
  is_array features = false ->
  get_prop features "map" = Ok m ->
  truthy m = true ->
  getRequestCallback err body = Throw TypeError.
Proof.
  intros Herr Hberr Hfalsy Hfeatures Htruthy Harr Hm Hmt.
  unfold _getRequestCallback.
  rewrite Herr, Hberr. cbn [bind]. rewrite Hfalsy, Hfeatures. cbn [bind].
  rewrite Htruthy. cbn [negb].
  destruct features; try discriminate Harr; rewrite Hm; cbn [bind]; now rewrite Hmt.
Qed.

(** X11: whenever the handler of a query calls the callback, it hands it
    either one truthy error, or [null] and a feature collection that has one
    converted feature for each feature of the body; never an error and a
    result together. *)
Theorem get_callback_error_or_collection err body args :
  getRequestCallback err body = Ok (Callback args) ->
  (exists e, args = [e] /\ truthy e = true)
  \/ (exists esriFeatures geojsonFeatures,
        get_prop body "features" = Ok (Arr esriFeatures)
        /\ Forall2 (fun f g => arcgis_parse f = Ok g) esriFeatures geojsonFeatures
        /\ List.length geojsonFeatures = List.length esriFeatures
        /\ args = [Prim Null;
                   Obj [("type", Prim (Str "FeatureCollection"));
                        ("features", Arr geojsonFeatures)]]).
Proof.
  unfold _getRequestCallback. intros H.
  destruct (truthy err) eqn:Herr.
  - inversion H; subst. left. eauto.
  - apply bind_Ok in H as (berr & Hberr & H).
    destruct (truthy berr) eqn:Hb.
    + invert_binds H. inversion H; subst. left. eauto.
    + apply bind_Ok in H as (features & Hfeatures & H).
      destruct (truthy features) eqn:Hf; cbn [negb] in H.
      * destruct features as [p|fs|ps|ps].
        2: { apply bind_Ok in H as (gs & Hgs & H).
             inversion H; subst. right. exists fs, gs.
             apply map_result_Forall2 in Hgs.
             split; [exact Hfeatures|]. split; [exact Hgs|].
             split; [symmetry; apply (Forall2_length _ _ _ Hgs)|reflexivity]. }
        all: invert_binds H; try discriminate H; inversion H; subst; left; eauto.
      * invert_binds H. inversion H; subst. left. eauto.
Qed.

End HandlerOutcomes.

(** * More of the mutations *)

Section MutationRequests.

Variable JSON_parse : value -> result value.
Variable JSON_stringify : value -> prim.
Variable ToPrimitive : hint -> value -> result prim.
Variable StringToNumber : string -> number.
Variable NumberToString : number -> string.
Variable arcgis_convert : value -> result value.

Local Abbreviation add' :=
  (add JSON_parse JSON_stringify ToPrimitive NumberToString arcgis_convert).
Local Abbreviation update' :=
  (update JSON_parse JSON_stringify ToPrimitive StringToNumber NumberToString
          arcgis_convert).
Local Abbreviation update_feature' :=
  (update_feature ToPrimitive StringToNumber arcgis_convert).

Lemma assign_prop_same {A} (d : A) (o : list (string * A)) k v :
  lookup_prop d o k = v -> v <> d -> assign_prop o k v = o.
Proof.
  induction o as [|[k0 v0] o IH]; simpl; intros Hlook Hv.
  - congruence.
  - destruct (String.eqb_spec k0 k) as [->|Hne].
    + now subst.
    + now rewrite IH.
Qed.

(** X12: an update of a feature whose conversion has no [attributes]
    ([undefined] or [null], or the conversion itself is) throws a TypeError
    before any request is made. *)
Theorem update_without_attributes_throws st this geojson esriJson :
  arcgis_convert geojson = Ok esriJson ->
  get_prop esriJson "attributes" = Throw TypeError
  \/ get_prop esriJson "attributes" = Ok (Prim Undefined)
  \/ get_prop esriJson "attributes" = Ok (Prim Null) ->
  update' st this geojson = Throw TypeError.
Proof.
  unfold update, update_feature. intros Hconv. rewrite Hconv. cbn [bind].
  intros [H | [H | H]]; rewrite H; reflexivity.
Qed.

(** X13: when the converted feature already has a number for [OBJECTID],
    an update posts the very [features] field, and the very form, that an add
    of the same feature posts. *)
Theorem update_of_numeric_OBJECTID_posts_as_add st this geojson props attrs n c1 :
  arcgis_convert geojson = Ok (Obj props) ->
  lookup_prop (Prim Undefined) props "attributes" = Obj attrs ->
  lookup_prop (Prim Undefined) attrs "OBJECTID" = Prim (Num n) ->
  add' st this geojson = Ok c1 ->
  exists c2,
    update' st this geojson = Ok c2
    /\ form (request c2) = form (request c1).
Proof.
  intros Hconv Hattrs Hoid Hadd.
  assert (Hfeature : update_feature' geojson = Ok (Obj props)).
  { unfold update_feature. rewrite Hconv. cbn [get_prop bind]. rewrite Hattrs.
    cbn [get_prop bind]. rewrite Hoid. cbn [to_number prim_to_number bind put_prop].
    rewrite (assign_prop_same _ _ _ _ Hoid) by discriminate.
    rewrite (assign_prop_same _ _ _ _ Hattrs) by discriminate.
    reflexivity. }
  unfold add in Hadd. rewrite Hconv in Hadd. cbn [bind] in Hadd.
  apply bind_Ok in Hadd as (settings & Hsettings & Hadd).
  apply bind_Ok in Hadd as (url & Hurl & Hadd).
  apply bind_Ok in Hadd as (token & Htoken & Hadd).
  inversion Hadd; subst. clear Hadd.
  unfold update. rewrite Hfeature. cbn [bind].
  rewrite Hsettings. cbn [bind]. rewrite Hurl. cbn [bind]. rewrite Htoken. cbn [bind].
  eexists. split; reflexivity.
Qed.

End MutationRequests.

(** * More of the constructor and of the query *)

Section StoreRuns.

Variable stringify : gmap nat (list (string * sval)) -> sval -> result unit.

Implicit Types st : gmap nat (list (string * sval)).

Ltac store_lookup :=
  repeat first [ rewrite lookup_insert_eq
               | rewrite lookup_insert_ne by congruence ];
  first [ reflexivity | eassumption ].

Ltac store_step :=
  first [ erewrite sget_ref by store_lookup
        | erewrite sput_ref by store_lookup ];
  cbn [bind].

Ltac eval_props :=
  repeat match goal with
         | |- context [lookup_prop ?d ?o ?k] =>
             let r := eval vm_compute in (lookup_prop d o k) in
             progress change (lookup_prop d o k) with r
         | |- context [assign_prop ?o ?k ?v] =>
             let r := eval cbv in (assign_prop o k v) in
             progress change (assign_prop o k v) with r
         end.

(** The constructor on options whose [defaultResultOptions] is a falsy
    primitive ([undefined] when absent). *)
Lemma FeatureService_plain st o oo p :
  st !! o = Some oo ->
  lookup_prop (SPrim Undefined) oo "defaultResultOptions" = SPrim p ->
  prim_truthy p = false ->
  exists st' this dro ds oo',
    FeatureService st (SRef o) = Ok (st', this)
    /\ st !! this = None /\ st !! dro = None /\ st !! ds = None
    /\ st' !! this = Some [("defaultSettings", SRef ds); ("settings", SRef o)]
    /\ st' !! ds = Some [("defaultResultOptions", SRef dro)]
    /\ st' !! dro = Some builtinResultOptions
    /\ st' !! o = Some oo'
    /\ lookup_prop (SPrim Undefined) oo' "defaultResultOptions"
       = (if is_undefined (SPrim p) then SRef dro else SPrim p)
    /\ (forall k, k <> "defaultResultOptions" ->
          lookup_prop (SPrim Undefined) oo' k = lookup_prop (SPrim Undefined) oo k)
    /\ (forall l, is_Some (st !! l) -> l <> o -> st' !! l = st !! l).
Proof.
  intros Ho Hlack Hfalsy. unfold FeatureService.
  destruct (alloc_spec st []) as (this & -> & Hthis).
  destruct (alloc_spec (<[this := []]> st) builtinResultOptions) as (dro & -> & Hdro).
  destruct (alloc_spec (<[dro := builtinResultOptions]> (<[this := []]> st))
              [("defaultResultOptions", SRef dro)]) as (ds & -> & Hds).
  apply lookup_insert_None in Hdro as [Hdro Htd].
  apply lookup_insert_None in Hds as [Hds Hrd].
  apply lookup_insert_None in Hds as [Hds Htds].
  assert (o <> this) by congruence.
  assert (o <> dro) by congruence.
  assert (o <> ds) by congruence.
  assert (Hframe : forall l, is_Some (st !! l) ->
            l <> this /\ l <> dro /\ l <> ds).
  { intros l [y Hy]. repeat split; congruence. }
  cbn [struthy]. store_step. eval_props. store_step. eval_props.
  match goal with
  | |- context [defaults ?S o (SRef ds)] =>
      destruct (defaults_spec S o ds oo [("defaultResultOptions", SRef dro)])
        as (o' & -> & Hlook); [congruence|store_lookup|store_lookup|]
  end.
  cbn [bind].
  assert (Ho' : lookup_prop (SPrim Undefined) o' "defaultResultOptions"
                = if is_undefined (SPrim p) then SRef dro else SPrim p).
  { rewrite Hlook, Hlack. reflexivity. }
  assert (Hkeep : forall k, k <> "defaultResultOptions" ->
            lookup_prop (SPrim Undefined) o' k = lookup_prop (SPrim Undefined) oo k).
  { intros k Hk. rewrite Hlook. cbn [lookup_prop].
    destruct (String.eqb_spec "defaultResultOptions" k); [congruence|].
    destruct (is_undefined (lookup_prop (SPrim Undefined) oo k)) eqn:Hu; [|reflexivity].
    symmetry. now apply is_undefined_eq. }
  store_step. store_step. rewrite Ho'.
  destruct (is_undefined (SPrim p)) eqn:Hundef.
  - cbn [struthy].
    store_step. eval_props. store_step. eval_props. store_step. eval_props.
    erewrite (defaults_defined _ dro dro builtinResultOptions builtinResultOptions)
      by (first [store_lookup | exact builtin_all_defined]).
    cbn [bind]. store_step.
    eexists _, this, dro, ds, (assign_prop o' "defaultResultOptions" (SRef dro)).
    split; [reflexivity|].
    repeat split; try assumption; try store_lookup.
    + rewrite lookup_assign_prop, String.eqb_refl. reflexivity.
    + intros k Hk. rewrite lookup_assign_prop.
      destruct (String.eqb_spec "defaultResultOptions" k); [congruence|]. now apply Hkeep.
    + intros l Hl Hlo. destruct (Hframe l Hl) as (? & ? & ?). store_lookup.
  - cbn [struthy]. rewrite Hfalsy.
    eexists _, this, dro, ds, o'. split; [reflexivity|].
    repeat split; try assumption; try store_lookup.
    intros l Hl Hlo. destruct (Hframe l Hl) as (? & ? & ?). store_lookup.
Qed.

(** The constructor on options whose [defaultResultOptions] is an object. *)
Lemma FeatureService_with_defaults st o oo d given :
  st !! o = Some oo ->
  lookup_prop (SPrim Undefined) oo "defaultResultOptions" = SRef d ->
  st !! d = Some given ->
  exists st' this dro ds oo',
    FeatureService st (SRef o) = Ok (st', this)
    /\ st !! this = None /\ st !! dro = None /\ st !! ds = None
    /\ st' !! this = Some [("defaultSettings", SRef ds); ("settings", SRef o)]
    /\ st' !! ds = Some [("defaultResultOptions", SRef dro)]
    /\ st' !! dro = Some builtinResultOptions
    /\ st' !! o = Some oo'
    /\ lookup_prop (SPrim Undefined) oo' "defaultResultOptions" = SRef d
    /\ (d <> o -> forall k,
          lookup_prop (SPrim Undefined) oo' k = lookup_prop (SPrim Undefined) oo k)
    /\ (forall l, is_Some (st !! l) -> l <> o -> l <> d -> st' !! l = st !! l).
Proof.
  intros Ho Hgiven Hd. unfold FeatureService.
  destruct (alloc_spec st []) as (this & -> & Hthis).
  destruct (alloc_spec (<[this := []]> st) builtinResultOptions) as (dro & -> & Hdro).
  destruct (alloc_spec (<[dro := builtinResultOptions]> (<[this := []]> st))
              [("defaultResultOptions", SRef dro)]) as (ds & -> & Hds).
  apply lookup_insert_None in Hdro as [Hdro Htd].
  apply lookup_insert_None in Hds as [Hds Hrd].
  apply lookup_insert_None in Hds as [Hds Htds].
  assert (o <> this) by congruence.
  assert (o <> dro) by congruence.
  assert (o <> ds) by congruence.
  assert (d <> this) by congruence.
  assert (d <> dro) by congruence.
  assert (d <> ds) by congruence.
  assert (Hframe : forall l, is_Some (st !! l) ->
            l <> this /\ l <> dro /\ l <> ds).
  { intros l [y Hy]. repeat split; congruence. }
  cbn [struthy]. store_step. eval_props. store_step. eval_props.
  erewrite (defaults_defined _ o ds oo [("defaultResultOptions", SRef dro)])
    by (first [store_lookup
              | constructor; [cbn [fst]; now rewrite Hgiven|constructor] ]).
  cbn [bind]. store_step. store_step. rewrite Hgiven. cbn [struthy].
  store_step. eval_props. store_step. eval_props. store_step. eval_props.
  match goal with
  | |- context [defaults ?S d (SRef dro)] =>
      destruct (defaults_spec S d dro given builtinResultOptions)
        as (o' & -> & Hlook); [congruence|store_lookup|store_lookup|]
  end.
  cbn [bind].
  destruct (decide (o = d)) as [->|Hod].
  - assert (given = oo) by congruence. subst given.
    store_step.
    eexists _, this, dro, ds, (assign_prop o' "defaultResultOptions" (SRef d)).
    split; [reflexivity|].
    repeat split; try assumption; try store_lookup.
    + rewrite lookup_assign_prop, String.eqb_refl. reflexivity.
    + congruence.
    + intros l Hl Hlo _. destruct (Hframe l Hl) as (? & ? & ?). store_lookup.
  - store_step.
    eexists _, this, dro, ds, (assign_prop oo "defaultResultOptions" (SRef d)).
    split; [reflexivity|].
    repeat split; try assumption; try store_lookup.
    + rewrite lookup_assign_prop, String.eqb_refl. reflexivity.
    + intros _ k. rewrite lookup_assign_prop.
      destruct (String.eqb_spec "defaultResultOptions" k) as [<-|]; [|reflexivity].
      now rewrite Hgiven.
    + intros l Hl Hlo Hld. destruct (Hframe l Hl) as (? & ? & ?). store_lookup.
Qed.

(** X14: on an options object whose [defaultResultOptions] is absent, falsy
    or an object, the constructor returns a new instance that holds exactly
    [defaultSettings] and [settings]; [settings] is the caller's options
    object itself, not a copy, and [defaultSettings] holds the built-in
    default result options. *)
Theorem constructor_instance st o oo :
  st !! o = Some oo ->
  (exists p, lookup_prop (SPrim Undefined) oo "defaultResultOptions" = SPrim p
             /\ prim_truthy p = false)
  \/ (exists d, lookup_prop (SPrim Undefined) oo "defaultResultOptions" = SRef d
                /\ is_Some (st !! d)) ->
  exists st' this ds dro,
    FeatureService st (SRef o) = Ok (st', this)
    /\ st !! this = None
    /\ st' !! this = Some [("defaultSettings", SRef ds); ("settings", SRef o)]
    /\ st' !! ds = Some [("defaultResultOptions", SRef dro)]
    /\ st' !! dro = Some builtinResultOptions.
Proof.
  intros Ho [(p & Hp & Hfalsy) | (d & Hd & [given Hgiven])].
  - destruct (FeatureService_plain st o oo p Ho Hp Hfalsy)
      as (st' & this & dro & ds & oo' & Hrun & Hthis & _ & _ & H1 & H2 & H3 & _).
    exists st', this, ds, dro. auto.
  - destruct (FeatureService_with_defaults st o oo d given Ho Hd Hgiven)
      as (st' & this & dro & ds & oo' & Hrun & Hthis & _ & _ & H1 & H2 & H3 & _).
    exists st', this, ds, dro. auto.
Qed.

(** X15: of the caller's options object the constructor writes the key
    [defaultResultOptions] only, and of the objects there before the call
    it changes none but the options and the object their
    [defaultResultOptions] refers to. *)
Theorem constructor_writes_options_only st o oo :
  st !! o = Some oo ->
  (exists p, lookup_prop (SPrim Undefined) oo "defaultResultOptions" = SPrim p
             /\ prim_truthy p = false)
  \/ (exists d, lookup_prop (SPrim Undefined) oo "defaultResultOptions" = SRef d
                /\ is_Some (st !! d)) ->
  exists st' this oo',
    FeatureService st (SRef o) = Ok (st', this)
    /\ st' !! o = Some oo'
    /\ (lookup_prop (SPrim Undefined) oo "defaultResultOptions" <> SRef o ->
        forall k, k <> "defaultResultOptions" ->
          lookup_prop (SPrim Undefined) oo' k = lookup_prop (SPrim Undefined) oo k)
    /\ (forall l, is_Some (st !! l) -> l <> o ->
          lookup_prop (SPrim Undefined) oo "defaultResultOptions" <> SRef l ->
          st' !! l = st !! l).
Proof.
  intros Ho [(p & Hp & Hfalsy) | (d & Hd & [given Hgiven])].
  - destruct (FeatureService_plain st o oo p Ho Hp Hfalsy)
      as (st' & this & dro & ds & oo' & Hrun & _ & _ & _ & _ & _ & _ & Hoo' & _
          & Hkeep & Hframe).
    exists st', this, oo'. repeat split; auto.
  - destruct (FeatureService_with_defaults st o oo d given Ho Hd Hgiven)
      as (st' & this & dro & ds & oo' & Hrun & _ & _ & _ & _ & _ & _ & Hoo' & _
          & Hkeep & Hframe).
    exists st', this, oo'. repeat split; auto.
    + intros Hne k _. apply Hkeep. congruence.
    + intros l Hl Hlo Hld. apply Hframe; congruence.
Qed.

(** X16: constructed without options, the instance has one object for both
    [settings] and [defaultSettings], holding the built-in default result
    options, and no object there before the call is changed. *)
Theorem constructor_without_options st options :
  struthy options = false ->
  exists st' this ds dro,
    FeatureService st options = Ok (st', this)
    /\ st !! this = None
    /\ st' !! this = Some [("defaultSettings", SRef ds); ("settings", SRef ds)]
    /\ st' !! ds = Some [("defaultResultOptions", SRef dro)]
    /\ st' !! dro = Some builtinResultOptions
    /\ forall l, is_Some (st !! l) -> st' !! l = st !! l.
Proof.
  intros Hfalsy. unfold FeatureService.
  destruct (alloc_spec st []) as (this & -> & Hthis).
  destruct (alloc_spec (<[this := []]> st) builtinResultOptions) as (dro & -> & Hdro).
  destruct (alloc_spec (<[dro := builtinResultOptions]> (<[this := []]> st))
              [("defaultResultOptions", SRef dro)]) as (ds & -> & Hds).
  apply lookup_insert_None in Hdro as [Hdro Htd].
  apply lookup_insert_None in Hds as [Hds Hrd].
  apply lookup_insert_None in Hds as [Hds Htds].
  rewrite Hfalsy.
  store_step. eval_props. store_step. eval_props. store_step. eval_props.
  rewrite Hfalsy.
  eexists _, this, ds, dro. split; [reflexivity|].
  repeat split; try assumption; try store_lookup.
  intros l [y Hy].
  assert (l <> this) by congruence.
  assert (l <> dro) by congruence.
  assert (l <> ds) by congruence.
  store_lookup.
Qed.

(** X17: a query writes into the caller's parameter object and sends that
    very object: each key but [token] then holds the caller's value unless it
    was [undefined], and else the stored default; [token] holds what the
    instance reads as [this.token], whatever the caller gave; no other
    object is written. *)
Theorem get_writes_merged_parameters st this p s d this_o s_o po dflt st' req :
  st !! this = Some this_o ->
  lookup_prop (SPrim Undefined) this_o "settings" = SRef s ->
  st !! s = Some s_o ->
  lookup_prop (SPrim Undefined) s_o "defaultResultOptions" = SRef d ->
  st !! p = Some po ->
  st !! d = Some dflt ->
  p <> this -> p <> s -> p <> d ->
  get stringify st this (SRef p) = Ok (st', req) ->
  qs req = SRef p
  /\ (exists eff,
        st' !! p = Some eff
        /\ forall k,
             lookup_prop (SPrim Undefined) eff k
             = if String.eqb "token" k
               then lookup_prop (SPrim Undefined) this_o "token"
               else if is_undefined (lookup_prop (SPrim Undefined) po k)
                    then lookup_prop (SPrim Undefined) dflt k
                    else lookup_prop (SPrim Undefined) po k)
  /\ forall l, l <> p -> st' !! l = st !! l.
Proof.
  intros Hthis Hsettings Hs Hdro Hp Hd Hpt Hps Hpd Hget.
  destruct (get_effective_parameters stringify st this p s d this_o po dflt
              Hthis Hsettings s_o Hs Hdro Hp Hd Hpt Hps Hpd st' req Hget)
    as (Hqs & Heff).
  split; [exact Hqs|]. split; [exact Heff|].
  apply (get_frame stringify _ _ _ _ _ Hget).
Qed.

(** X18: a second query with the same parameter object leaves every
    parameter as the first one made it. *)
Theorem get_again_same_parameters st this p s d this_o s_o po dflt st1 r1 st2 r2 :
  st !! this = Some this_o ->
  lookup_prop (SPrim Undefined) this_o "settings" = SRef s ->
  st !! s = Some s_o ->
  lookup_prop (SPrim Undefined) s_o "defaultResultOptions" = SRef d ->
  st !! p = Some po ->
  st !! d = Some dflt ->
  p <> this -> p <> s -> p <> d ->
  get stringify st this (SRef p) = Ok (st1, r1) ->
  get stringify st1 this (SRef p) = Ok (st2, r2) ->
  exists e1 e2,
    st1 !! p = Some e1 /\ st2 !! p = Some e2
    /\ forall k, lookup_prop (SPrim Undefined) e2 k = lookup_prop (SPrim Undefined) e1 k.
Proof.
  intros Hthis Hsettings Hs Hdro Hp Hd Hpt Hps Hpd Hget1 Hget2.
  destruct (get_effective_parameters stringify st this p s d this_o po dflt
              Hthis Hsettings s_o Hs Hdro Hp Hd Hpt Hps Hpd st1 r1 Hget1)
    as (_ & e1 & He1 & Hlook1).
  assert (Hframe := get_frame stringify _ _ _ _ _ Hget1).
  destruct (get_effective_parameters stringify st1 this p s d this_o e1 dflt)
    with (s_o := s_o) (st' := st2) (req := r2)
    as (_ & e2 & He2 & Hlook2); try assumption;
    try (rewrite Hframe by congruence; assumption).
  exists e1, e2. split; [exact He1|]. split; [exact He2|].
  intros k. rewrite Hlook2, Hlook1.
  destruct (String.eqb "token" k); [reflexivity|].
  destruct (is_undefined (lookup_prop (SPrim Undefined) po k)) eqn:Hu.
  - destruct (is_undefined (lookup_prop (SPrim Undefined) dflt k)) eqn:Hu2;
      reflexivity.
  - now rewrite Hu.
Qed.

(** A query on an instance whose stored default result options are a falsy
    primitive merges nothing. *)
Lemma get_primitive_defaults st this p s this_o s_o po q :
  st !! this = Some this_o ->
  lookup_prop (SPrim Undefined) this_o "settings" = SRef s ->
  st !! s = Some s_o ->
  lookup_prop (SPrim Undefined) s_o "defaultResultOptions" = SPrim q ->
  prim_truthy q = false ->
  st !! p = Some po ->
  p <> this -> p <> s ->
  forall st' req,
  get stringify st this (SRef p) = Ok (st', req) ->
  exists eff,
    st' !! p = Some eff
    /\ forall k,
         lookup_prop (SPrim Undefined) eff k
         = if String.eqb "token" k
           then lookup_prop (SPrim Undefined) this_o "token"
           else lookup_prop (SPrim Undefined) po k.
Proof.
  intros Hthis Hsettings Hs Hdro Hq Hp Hpt Hps st' req.
  unfold get.
  rewrite (sget_ref _ _ _ _ Hthis), Hsettings. cbn [bind].
  rewrite (sget_ref _ _ _ _ Hs), Hdro. cbn [bind].
  assert (Hkeys : source_keys st (SPrim q) = Ok []).
  { destruct q as [| |b|n|t]; try reflexivity.
    cbn in Hq |- *. now destruct (String.eqb t ""). }
  unfold defaults. rewrite Hkeys. cbn [bind defaults_loop].
  rewrite (sget_ref _ _ _ _ Hthis). cbn [bind].
  rewrite (sput_ref _ _ _ _ _ Hp). cbn [bind].
  intros H. apply bind_Ok in H as (u & _ & H).
  apply bind_Ok in H as (settings2 & _ & H).
  apply bind_Ok in H as (url & _ & H).
  inversion H; subst.
  eexists. split; [apply lookup_insert_eq|].
  intros k. apply lookup_assign_prop.
Qed.

(** X19: a query on a client constructed from options without
    [defaultResultOptions] sends, under every key but [token], the caller's
    value unless it is [undefined], and else the built-in default:
    [returnCountsOnly: false], [returnIdsOnly: false],
    [returnGeometry: true], [outSR: '4326'], [outFields: '*'],
    [f: 'json']. *)
Theorem constructed_query_has_builtin_defaults st o oo p po st1 this st2 req :
  st !! o = Some oo ->
  lookup_prop (SPrim Undefined) oo "defaultResultOptions" = SPrim Undefined ->
  st !! p = Some po ->
  p <> o ->
  FeatureService st (SRef o) = Ok (st1, this) ->
  get stringify st1 this (SRef p) = Ok (st2, req) ->
  qs req = SRef p
  /\ exists eff,
       st2 !! p = Some eff
       /\ forall k, k <> "token" ->
            lookup_prop (SPrim Undefined) eff k
            = if is_undefined (lookup_prop (SPrim Undefined) po k)
              then lookup_prop (SPrim Undefined)
                     [("returnCountsOnly", SPrim (Bool false));
                      ("returnIdsOnly", SPrim (Bool false));
                      ("returnGeometry", SPrim (Bool true));
                      ("outSR", SPrim (Str "4326"));
                      ("outFields", SPrim (Str "*"));
                      ("f", SPrim (Str "json"))] k
              else lookup_prop (SPrim Undefined) po k.
Proof.
  intros Ho Hlack Hp Hpo Hrun Hget.
  destruct (FeatureService_plain st o oo Undefined Ho Hlack eq_refl)
    as (st1' & this' & dro & ds & oo' & Hrun' & Hthis & Hdro & Hds
        & H1 & H2 & H3 & Hoo' & Hstored & _ & Hframe).
  rewrite Hrun in Hrun'. inversion Hrun'; subst st1' this'. clear Hrun'.
  cbn [is_undefined] in Hstored.
  destruct (get_effective_parameters stringify st1 this p o dro _ po builtinResultOptions
              H1 eq_refl oo' Hoo' Hstored) with (st' := st2) (req := req)
    as (Hqs & eff & Heff & Hlook); try assumption; try congruence.
  { rewrite Hframe; [assumption|eauto|assumption]. }
  split; [exact Hqs|]. exists eff. split; [exact Heff|].
  intros k Hk. rewrite Hlook.
  destruct (String.eqb_spec "token" k); [congruence|reflexivity].
Qed.

(** X20: a [defaultResultOptions] that is falsy without being [undefined]
    ([null], [false], [0], the empty string) is kept by the constructor as it
    is, and a query on that client then sends the caller's own values under
    every key but [token]: no default is merged. *)
Theorem constructed_with_falsy_defaults st o oo q p po st1 this st2 req :
  st !! o = Some oo ->
  lookup_prop (SPrim Undefined) oo "defaultResultOptions" = SPrim q ->
  prim_truthy q = false ->
  q <> Undefined ->
  st !! p = Some po ->
  p <> o ->
  FeatureService st (SRef o) = Ok (st1, this) ->
  get stringify st1 this (SRef p) = Ok (st2, req) ->
  stored_defaults st1 this = Ok (SPrim q)
  /\ exists eff,
       st2 !! p = Some eff
       /\ forall k, k <> "token" ->
            lookup_prop (SPrim Undefined) eff k = lookup_prop (SPrim Undefined) po k.
Proof.
  intros Ho Hq Hfalsy Hne Hp Hpo Hrun Hget.
  destruct (FeatureService_plain st o oo q Ho Hq Hfalsy)
    as (st1' & this' & dro & ds & oo' & Hrun' & Hthis & Hdro & Hds
        & H1 & H2 & H3 & Hoo' & Hstored & _ & Hframe).
  rewrite Hrun in Hrun'. inversion Hrun'; subst st1' this'. clear Hrun'.
  assert (Hundef : is_undefined (SPrim q) = false) by (destruct q; [congruence|reflexivity..]).
  rewrite Hundef in Hstored.
  split.
  - unfold stored_defaults. rewrite (sget_ref _ _ _ _ H1). cbn [bind lookup_prop].
    eval_props. rewrite (sget_ref _ _ _ _ Hoo'). now rewrite Hstored.
  - destruct (get_primitive_defaults st1 this p o _ oo' po q H1 eq_refl Hoo' Hstored Hfalsy)
      with (st' := st2) (req := req) as (eff & Heff & Hlook);
      try assumption; try congruence.
    { rewrite Hframe; [assumption|eauto|assumption]. }
    exists eff. split; [exact Heff|].
    intros k Hk. rewrite Hlook.
    destruct (String.eqb_spec "token" k); [congruence|reflexivity].
Qed.

End StoreRuns.

(** * The constructor and the operations together *)

Section ClientRequests.

Variable JSON_parse : value -> result value.
Variable JSON_stringify : value -> prim.
Variable ToPrimitive : hint -> value -> result prim.
Variable StringToNumber : string -> number.
Variable NumberToString : number -> string.
Variable arcgis_convert : value -> result value.
Variable stringify : gmap nat (list (string * sval)) -> sval -> result unit.

Implicit Types st : gmap nat (list (string * sval)).

Local Abbreviation mutate' :=
  (mutate JSON_parse JSON_stringify ToPrimitive StringToNumber NumberToString
          arcgis_convert).

(** What a constructed instance reads as [this.settings.url]. *)
Lemma constructed_settings_url st o oo st1 this :
  st !! o = Some oo ->
  (exists p, lookup_prop (SPrim Undefined) oo "defaultResultOptions" = SPrim p
             /\ prim_truthy p = false)
  \/ (exists d, lookup_prop (SPrim Undefined) oo "defaultResultOptions" = SRef d
                /\ d <> o /\ is_Some (st !! d)) ->
  FeatureService st (SRef o) = Ok (st1, this) ->
  st !! this = None
  /\ sget st1 (SRef this) "settings" = Ok (SRef o)
  /\ sget st1 (SRef o) "url" = Ok (lookup_prop (SPrim Undefined) oo "url").
Proof.
  intros Ho [(p & Hp & Hfalsy) | (d & Hd & Hdo & [given Hgiven])] Hrun.
  - destruct (FeatureService_plain st o oo p Ho Hp Hfalsy)
      as (st' & this' & dro & ds & oo' & Hrun' & Hthis & _ & _ & H1 & _ & _ & Hoo' & _
          & Hkeep & _).
    rewrite Hrun in Hrun'. inversion Hrun'; subst st' this'.
    split; [exact Hthis|].
    rewrite (sget_ref _ _ _ _ H1), (sget_ref _ _ _ _ Hoo').
    split; [reflexivity|]. now rewrite Hkeep.
  - destruct (FeatureService_with_defaults st o oo d given Ho Hd Hgiven)
      as (st' & this' & dro & ds & oo' & Hrun' & Hthis & _ & _ & H1 & _ & _ & Hoo' & _
          & Hkeep & _).
    rewrite Hrun in Hrun'. inversion Hrun'; subst st' this'.
    split; [exact Hthis|].
    rewrite (sget_ref _ _ _ _ H1), (sget_ref _ _ _ _ Hoo').
    split; [reflexivity|]. now rewrite Hkeep.
Qed.

Lemma sget_same_object st st' l k :
  st' !! l = st !! l -> sget st' (SRef l) k = sget st (SRef l) k.
Proof. intros H. cbn [sget]. now rewrite H. Qed.

(** X21: each request of a constructed client is addressed to the [url] of
    the options it was constructed from, followed by the endpoint of the
    operation: [/addFeatures], [/updateFeatures], [/deleteFeatures] for the
    mutations, [/query] for a query (with a parameter object other than the
    options). *)
Theorem constructed_client_urls st o oo st1 this :
  st !! o = Some oo ->
  (exists p, lookup_prop (SPrim Undefined) oo "defaultResultOptions" = SPrim p
             /\ prim_truthy p = false)
  \/ (exists d, lookup_prop (SPrim Undefined) oo "defaultResultOptions" = SRef d
                /\ d <> o /\ is_Some (st !! d)) ->
  FeatureService st (SRef o) = Ok (st1, this) ->
  (forall m call,
     mutate' st1 this m = Ok call ->
     post_url (request call) = (lookup_prop (SPrim Undefined) oo "url", endpoint m))
  /\ (forall p st2 req,
        is_Some (st !! p) -> p <> o ->
        get stringify st1 this (SRef p) = Ok (st2, req) ->
        get_url req = (lookup_prop (SPrim Undefined) oo "url", "/query")).
Proof.
  intros Ho Hcase Hrun.
  destruct (constructed_settings_url st o oo st1 this Ho Hcase Hrun)
    as (Hthis & Hsettings & Hurl).
  split.
  - intros m call H.
    destruct m; cbn [mutate] in H; unfold add, update, delete in H;
      repeat match type of H with
             | bind _ _ = Ok _ =>
                 let x := fresh "x" in
                 let Hx := fresh "Hx" in
                 apply bind_Ok in H as (x & Hx & H)
             end;
      inversion H; subst; cbn [request post_url endpoint];
      repeat match goal with
             | Hx : sget st1 (SRef this) "settings" = Ok _ |- _ =>
                 rewrite Hsettings in Hx; inversion Hx; subst; clear Hx
             | Hx : sget st1 (SRef o) "url" = Ok _ |- _ =>
                 rewrite Hurl in Hx; inversion Hx; subst; clear Hx
             end;
      reflexivity.
  - intros p st2 req [po Hp] Hpo H.
    assert (p <> this) by congruence.
    unfold get in H.
    apply bind_Ok in H as (settings & _ & H).
    apply bind_Ok in H as (dro & _ & H).
    apply bind_Ok in H as (sta & Hd & H).
    apply bind_Ok in H as (token & _ & H).
    apply bind_Ok in H as (stb & Hput & H).
    apply bind_Ok in H as (u & _ & H).
    apply bind_Ok in H as (settings2 & Hs2 & H).
    apply bind_Ok in H as (url & Hu & H).
    assert (Hsame : forall l, l <> p -> stb !! l = st1 !! l).
    { intros l Hl. rewrite (sput_frame _ _ _ _ _ l Hput) by congruence.
      apply (defaults_frame _ _ _ _ Hd l Hl). }
    inversion H; subst st2 req. cbn [get_url].
    rewrite (sget_same_object st1 stb this) in Hs2 by (apply Hsame; congruence).
    rewrite Hsettings in Hs2. inversion Hs2; subst.
    rewrite (sget_same_object st1 stb o) in Hu by (apply Hsame; congruence).
    rewrite Hurl in Hu. inversion Hu; subst. reflexivity.
Qed.

End ClientRequests.

(** * The further theorems at work *)

Lemma transport_error_passed_through_witness :
  (forall st this m call,
     sample_mutate st this m = Ok call ->
     respond call (Prim (Str "ETIMEDOUT")) (Prim (Str body_html))
     = Ok (Callback [Prim (Str "ETIMEDOUT")]))
  /\ sample_getRequestCallback (Prim (Str "ETIMEDOUT")) (Prim Undefined)
     = Ok (Callback [Prim (Str "ETIMEDOUT")]).
Proof.
  split.
  - apply (proj1 (transport_error_passed_through
                    Sample.JSON_parse Sample.JSON_stringify Sample.ToPrimitive
                    Sample.StringToNumber Sample.NumberToString Sample.parse
                    Sample.convert (Prim (Str "ETIMEDOUT")) (Prim (Str body_html))
                    eq_refl)).
  - apply (proj2 (transport_error_passed_through
                    Sample.JSON_parse Sample.JSON_stringify Sample.ToPrimitive
                    Sample.StringToNumber Sample.NumberToString Sample.parse
                    Sample.convert (Prim (Str "ETIMEDOUT")) (Prim Undefined)
                    eq_refl)).
Defined.

Lemma mutation_empty_json_reported_witness :
  exists call,
    sample_mutate constructed.1 constructed.2 (Delete (SPrim (Str "7"))) = Ok call
    /\ respond call (Prim Null) (Prim (Str body_null))
       = Ok (Callback [Err [("message",
               Prim (Str "Response body was null or could not be parsed"))]]).
Proof.
  eexists. split; [reflexivity|].
  eapply (mutation_empty_json_reported
            Sample.JSON_parse Sample.JSON_stringify Sample.ToPrimitive
            Sample.StringToNumber Sample.NumberToString Sample.convert
            constructed.1 constructed.2 (Delete (SPrim (Str "7")))).
  - reflexivity.
  - reflexivity.
  - right. exists (Prim Null). split; [vm_compute; reflexivity|reflexivity].
Defined.

Lemma mutation_reported_error_witness :
  exists call,
    sample_mutate constructed.1 constructed.2 (Add oid_feature) = Ok call
    /\ respond call (Prim Null) (Prim (Str body_reported_error))
       = Ok (Callback [Err [("message", Prim (Str "bad"));
                            ("code", Prim (Num (Finite false 99 0)))]]).
Proof.
  eexists. split; [reflexivity|].
  eapply (mutation_reported_error
            Sample.JSON_parse Sample.JSON_stringify Sample.ToPrimitive
            Sample.StringToNumber Sample.NumberToString Sample.convert
            constructed.1 constructed.2 (Add oid_feature)).
  - reflexivity.
  - reflexivity.
  - reflexivity.
  - vm_compute. reflexivity.
  - reflexivity.
  - reflexivity.
  - reflexivity.
  - reflexivity.
  - reflexivity.
  - reflexivity.
Defined.

Lemma mutation_unexpected_result_witness :
  exists call,
    sample_mutate constructed.1 constructed.2 (Add oid_feature) = Ok call
    /\ respond call (Prim Null) (Prim (Str body_unexpected))
       = Ok (Callback [Err [("message",
                             Prim (Str "Feature service error: unexpected result"));
                            ("result",
                             Obj [("objectId", Prim (Num (Finite false 5 0)))])]]).
Proof.
  eexists. split; [reflexivity|].
  eapply (mutation_unexpected_result
            Sample.JSON_parse Sample.JSON_stringify Sample.ToPrimitive
            Sample.StringToNumber Sample.NumberToString Sample.convert
            constructed.1 constructed.2 (Add oid_feature)).
  - reflexivity.
  - reflexivity.
  - reflexivity.
  - vm_compute. reflexivity.
  - reflexivity.
  - reflexivity.
  - reflexivity.
  - reflexivity.
Defined.

Lemma mutation_null_result_throws_witness :
  exists call,
    sample_mutate constructed.1 constructed.2 (Add oid_feature) = Ok call
    /\ respond call (Prim Null) (Prim (Str body_null_result)) = Throw TypeError.
Proof.
  eexists. split; [reflexivity|].
  eapply (mutation_null_result_throws
            Sample.JSON_parse Sample.JSON_stringify Sample.ToPrimitive
            Sample.StringToNumber Sample.NumberToString Sample.convert
            constructed.1 constructed.2 (Add oid_feature)).
  - reflexivity.
  - reflexivity.
  - reflexivity.
  - vm_compute. reflexivity.
  - left. reflexivity.
Defined.

Lemma mutation_callback_one_argument_witness :
  exists call,
    sample_mutate constructed.1 constructed.2 (Add oid_feature) = Ok call
    /\ exists x,
         [Err [("message", Prim (Str "bad"));
               ("code", Prim (Num (Finite false 99 0)))]] = [x]
         /\ (x = Prim Null \/ truthy x = true).
Proof.
  eexists. split; [reflexivity|].
  eapply (mutation_callback_one_argument
            Sample.JSON_parse Sample.JSON_stringify Sample.ToPrimitive
            Sample.StringToNumber Sample.NumberToString Sample.convert
            constructed.1 constructed.2 (Add oid_feature) _
            (Prim Null) (Prim (Str body_reported_error))).
  - reflexivity.
  - vm_compute. reflexivity.
Defined.

Lemma mutation_success_only_on_flag_witness :
  exists call,
    sample_mutate constructed.1 constructed.2 (Add oid_feature) = Ok call
    /\ truthy (Prim Null) = false /\ truthy (Prim (Str body_success)) = true
    /\ exists json keys results first success,
         Sample.JSON_parse (Prim (Str body_success)) = Ok json
         /\ object_keys json = Ok keys
         /\ get_prop json (first_key keys) = Ok results
         /\ get_prop results (index_key 0) = Ok first
         /\ get_prop first "success" = Ok success
         /\ truthy success = true.
Proof.
  eexists. split; [reflexivity|].
  eapply (mutation_success_only_on_flag
            Sample.JSON_parse Sample.JSON_stringify Sample.ToPrimitive
            Sample.StringToNumber Sample.NumberToString Sample.convert
            constructed.1 constructed.2 (Add oid_feature) _
            (Prim Null) (Prim (Str body_success))).
  - reflexivity.
  - vm_compute. reflexivity.
Defined.

Lemma get_service_error_witness :
  sample_getRequestCallback (Prim Null) body_service_error
  = Ok (Callback [Err [("message", Prim (Str "m"));
                       ("code", Prim (Num (num_of_nat 1)));
                       ("details", Arr [Prim (Str "d")])]]).
Proof.
  eapply (get_service_error Sample.ToPrimitive Sample.NumberToString Sample.parse
            (Prim Null) body_service_error).
  - reflexivity.
  - reflexivity.
  - reflexivity.
  - reflexivity.
  - reflexivity.
  - reflexivity.
Defined.

Lemma get_features_undefined_witness :
  sample_getRequestCallback (Prim Null) (Obj [])
  = Ok (Callback [Err [("message", Prim (Str "features are undefined"))]]).
Proof.
  eapply (get_features_undefined Sample.ToPrimitive Sample.NumberToString Sample.parse
            (Prim Null) (Obj []) (Prim Undefined) (Prim Undefined)).
  - reflexivity.
  - reflexivity.
  - reflexivity.
  - reflexivity.
  - left. reflexivity.
Defined.

Lemma get_features_map_not_callable_witness :
  sample_getRequestCallback (Prim Null) body_features_object = Throw TypeError.
Proof.
  eapply (get_features_map_not_callable
            Sample.ToPrimitive Sample.NumberToString Sample.parse
            (Prim Null) body_features_object (Prim Undefined)).
  - reflexivity.
  - reflexivity.
  - reflexivity.
  - reflexivity.
  - reflexivity.
  - reflexivity.
  - reflexivity.
  - reflexivity.
Defined.

Lemma get_callback_error_or_collection_witness :
  (exists e, [Err [("message", Prim (Str "features are undefined"))]] = [e]
             /\ truthy e = true)
  \/ (exists esriFeatures geojsonFeatures,
        get_prop (Obj []) "features" = Ok (Arr esriFeatures)
        /\ Forall2 (fun f g => Sample.parse f = Ok g) esriFeatures geojsonFeatures
        /\ List.length geojsonFeatures = List.length esriFeatures
        /\ [Err [("message", Prim (Str "features are undefined"))]]
           = [Prim Null;
              Obj [("type", Prim (Str "FeatureCollection"));
                   ("features", Arr geojsonFeatures)]]).
Proof.
  apply (get_callback_error_or_collection
           Sample.ToPrimitive Sample.NumberToString Sample.parse
           (Prim Null) (Obj [])).
  reflexivity.
Defined.

Lemma update_without_attributes_throws_witness :
  sample_update constructed.1 constructed.2 bare_geometry = Throw TypeError.
Proof.
  apply (update_without_attributes_throws
           Sample.JSON_parse Sample.JSON_stringify Sample.ToPrimitive
           Sample.StringToNumber Sample.NumberToString Sample.convert
           constructed.1 constructed.2 bare_geometry
           (Obj [("attributes", Prim Undefined)])).
  - reflexivity.
  - right. left. reflexivity.
Defined.

Lemma update_of_numeric_OBJECTID_posts_as_add_witness :
  exists c1,
    sample_add constructed.1 constructed.2 numeric_feature = Ok c1
    /\ exists c2,
         sample_update constructed.1 constructed.2 numeric_feature = Ok c2
         /\ form (request c2) = form (request c1).
Proof.
  eexists. split; [reflexivity|].
  eapply (update_of_numeric_OBJECTID_posts_as_add
            Sample.JSON_parse Sample.JSON_stringify Sample.ToPrimitive
            Sample.StringToNumber Sample.NumberToString Sample.convert
            constructed.1 constructed.2 numeric_feature).
  - reflexivity.
  - reflexivity.
  - reflexivity.
  - reflexivity.
Defined.

Lemma constructor_instance_witness :
  exists st' this ds dro,
    FeatureService shared_store (SRef 0) = Ok (st', this)
    /\ shared_store !! this = None
    /\ st' !! this = Some [("defaultSettings", SRef ds); ("settings", SRef 0)]
    /\ st' !! ds = Some [("defaultResultOptions", SRef dro)]
    /\ st' !! dro = Some builtinResultOptions.
Proof.
  apply (constructor_instance shared_store 0%nat
           [("url", SPrim (Str "u")); ("defaultResultOptions", SRef 1)]).
  - reflexivity.
  - right. exists 1%nat. split; [reflexivity|]. eexists. reflexivity.
Defined.

Lemma constructor_writes_options_only_witness :
  exists st' this oo',
    FeatureService token_store (SRef 0) = Ok (st', this)
    /\ st' !! 0%nat = Some oo'
    /\ (SPrim Undefined <> SRef 0 ->
        forall k, k <> "defaultResultOptions" ->
          lookup_prop (SPrim Undefined) oo' k
          = lookup_prop (SPrim Undefined)
              [("url", SPrim (Str "u")); ("token", SPrim (Str "secret"))] k)
    /\ (forall l, is_Some (token_store !! l) -> l <> 0%nat ->
          SPrim Undefined <> SRef l ->
          st' !! l = token_store !! l).
Proof.
  apply (constructor_writes_options_only token_store 0%nat
           [("url", SPrim (Str "u")); ("token", SPrim (Str "secret"))]).
  - reflexivity.
  - left. exists Undefined. split; reflexivity.
Defined.

Lemma constructor_without_options_witness :
  exists st' this ds dro,
    FeatureService token_store (SPrim Undefined) = Ok (st', this)
    /\ token_store !! this = None
    /\ st' !! this = Some [("defaultSettings", SRef ds); ("settings", SRef ds)]
    /\ st' !! ds = Some [("defaultResultOptions", SRef dro)]
    /\ st' !! dro = Some builtinResultOptions
    /\ forall l, is_Some (token_store !! l) -> st' !! l = token_store !! l.
Proof.
  apply (constructor_without_options token_store (SPrim Undefined)).
  reflexivity.
Defined.

Lemma get_writes_merged_parameters_witness :
  exists st' req,
    sample_get constructed.1 constructed.2 (SRef 1) = Ok (st', req)
    /\ qs req = SRef 1
    /\ (exists eff,
          st' !! 1%nat = Some eff
          /\ forall k,
               lookup_prop (SPrim Undefined) eff k
               = if String.eqb "token" k
                 then lookup_prop (SPrim Undefined)
                        [("defaultSettings", SRef 4); ("settings", SRef 0)] "token"
                 else if is_undefined
                           (lookup_prop (SPrim Undefined)
                              [("where", SPrim (Str "1=1"));
                               ("token", SPrim (Str "mine"))] k)
                      then lookup_prop (SPrim Undefined) builtinResultOptions k
                      else lookup_prop (SPrim Undefined)
                             [("where", SPrim (Str "1=1"));
                              ("token", SPrim (Str "mine"))] k)
    /\ forall l, l <> 1%nat -> st' !! l = constructed.1 !! l.
Proof.
  eexists _, _. split; [vm_compute; reflexivity|].
  eapply (get_writes_merged_parameters Sample.stringify
            constructed.1 constructed.2 1%nat 0%nat 3%nat
            [("defaultSettings", SRef 4); ("settings", SRef 0)]
            [("url", SPrim (Str "u")); ("token", SPrim (Str "secret"));
             ("defaultResultOptions", SRef 3)]
            [("where", SPrim (Str "1=1")); ("token", SPrim (Str "mine"))]
            builtinResultOptions).
  - vm_compute. reflexivity.
  - reflexivity.
  - vm_compute. reflexivity.
  - reflexivity.
  - vm_compute. reflexivity.
  - vm_compute. reflexivity.
  - discriminate.
  - discriminate.
  - discriminate.
  - vm_compute. reflexivity.
Defined.

Lemma get_again_same_parameters_witness :
  exists st1 r1 st2 r2,
    sample_get constructed.1 constructed.2 (SRef 1) = Ok (st1, r1)
    /\ sample_get st1 constructed.2 (SRef 1) = Ok (st2, r2)
    /\ exists e1 e2,
         st1 !! 1%nat = Some e1 /\ st2 !! 1%nat = Some e2
         /\ forall k,
              lookup_prop (SPrim Undefined) e2 k = lookup_prop (SPrim Undefined) e1 k.
Proof.
  eexists _, _, _, _. split; [vm_compute; reflexivity|].
  split; [vm_compute; reflexivity|].
  eapply (get_again_same_parameters Sample.stringify
            constructed.1 constructed.2 1%nat 0%nat 3%nat
            [("defaultSettings", SRef 4); ("settings", SRef 0)]
            [("url", SPrim (Str "u")); ("token", SPrim (Str "secret"));
             ("defaultResultOptions", SRef 3)]
            [("where", SPrim (Str "1=1")); ("token", SPrim (Str "mine"))]
            builtinResultOptions).
  - vm_compute. reflexivity.
  - reflexivity.
  - vm_compute. reflexivity.
  - reflexivity.
  - vm_compute. reflexivity.
  - vm_compute. reflexivity.
  - discriminate.
  - discriminate.
  - discriminate.
  - vm_compute. reflexivity.
  - vm_compute. reflexivity.
Defined.

Lemma constructed_query_has_builtin_defaults_witness :
  exists st1 this st2 req,
    FeatureService token_store (SRef 0) = Ok (st1, this)
    /\ sample_get st1 this (SRef 1) = Ok (st2, req)
    /\ qs req = SRef 1
    /\ exists eff,
         st2 !! 1%nat = Some eff
         /\ forall k, k <> "token" ->
              lookup_prop (SPrim Undefined) eff k
              = if is_undefined
                     (lookup_prop (SPrim Undefined)
                        [("where", SPrim (Str "1=1")); ("token", SPrim (Str "mine"))] k)
                then lookup_prop (SPrim Undefined)
                       [("returnCountsOnly", SPrim (Bool false));
                        ("returnIdsOnly", SPrim (Bool false));
                        ("returnGeometry", SPrim (Bool true));
                        ("outSR", SPrim (Str "4326"));
                        ("outFields", SPrim (Str "*"));
                        ("f", SPrim (Str "json"))] k
                else lookup_prop (SPrim Undefined)
                       [("where", SPrim (Str "1=1")); ("token", SPrim (Str "mine"))] k.
Proof.
  eexists _, _, _, _. split; [vm_compute; reflexivity|].
  split; [vm_compute; reflexivity|].
  eapply (constructed_query_has_builtin_defaults Sample.stringify
            token_store 0%nat
            [("url", SPrim (Str "u")); ("token", SPrim (Str "secret"))]
            1%nat
            [("where", SPrim (Str "1=1")); ("token", SPrim (Str "mine"))]).
  - reflexivity.
  - reflexivity.
  - reflexivity.
  - discriminate.
  - vm_compute. reflexivity.
  - vm_compute. reflexivity.
Defined.

Lemma constructed_with_falsy_defaults_witness :
  exists st1 this st2 req,
    FeatureService null_query_store (SRef 0) = Ok (st1, this)
    /\ sample_get st1 this (SRef 1) = Ok (st2, req)
    /\ stored_defaults st1 this = Ok (SPrim Null)
    /\ exists eff,
         st2 !! 1%nat = Some eff
         /\ forall k, k <> "token" ->
              lookup_prop (SPrim Undefined) eff k
              = lookup_prop (SPrim Undefined) [("where", SPrim (Str "1=1"))] k.
Proof.
  eexists _, _, _, _. split; [vm_compute; reflexivity|].
  split; [vm_compute; reflexivity|].
  eapply (constructed_with_falsy_defaults Sample.stringify
            null_query_store 0%nat
            [("url", SPrim (Str "u")); ("defaultResultOptions", SPrim Null)]
            Null 1%nat [("where", SPrim (Str "1=1"))]).
  - reflexivity.
  - reflexivity.
  - reflexivity.
  - discriminate.
  - reflexivity.
  - discriminate.
  - vm_compute. reflexivity.
  - vm_compute. reflexivity.
Defined.

Lemma constructed_client_urls_witness :
  exists st1 this,
    FeatureService token_store (SRef 0) = Ok (st1, this)
    /\ (forall m call,
          sample_mutate st1 this m = Ok call ->
          post_url (request call)
          = (lookup_prop (SPrim Undefined)
               [("url", SPrim (Str "u")); ("token", SPrim (Str "secret"))] "url",
             endpoint m))
    /\ (forall p st2 req,
          is_Some (token_store !! p) -> p <> 0%nat ->
          sample_get st1 this (SRef p) = Ok (st2, req) ->
          get_url req
          = (lookup_prop (SPrim Undefined)
               [("url", SPrim (Str "u")); ("token", SPrim (Str "secret"))] "url",
             "/query")).
Proof.
  eexists _, _. split; [vm_compute; reflexivity|].
  eapply (constructed_client_urls
            Sample.JSON_parse Sample.JSON_stringify Sample.ToPrimitive
            Sample.StringToNumber Sample.NumberToString Sample.convert
            Sample.stringify token_store 0%nat
            [("url", SPrim (Str "u")); ("token", SPrim (Str "secret"))]).
  - reflexivity.
  - left. exists Undefined. split; reflexivity.
  - vm_compute. reflexivity.
Defined.
